(** * omniocular: the HR-CNN training harness

    A shallow embedding of [common/train.py] (the trainer factory) and of
    [models/diff_token/hr_cnn/__main__.py] (the embedding cache, the
    reporting helper and the entry script), with the properties the
    specification states about them.

    The tensor library, the dataset loader, the model, the evaluators and
    the trainers are external to these two files.  They are modelled as
    state transformers over an abstract [world]; every call the harness
    makes to them is also recorded as an [event], so that the order and
    the arguments of the calls can be stated. *)

From Stdlib Require Import ZArith QArith List Bool Ascii String Lia.
From stdpp Require Import base option gmap strings list.

Open Scope Z_scope.

(** ** Python strings *)

(** [template.format(arg)] for a template with a single [{}] field. *)
Fixpoint format (template arg : string) : string :=
  match template with
  | EmptyString => EmptyString
  | String c rest =>
      match c, rest with
      | "{"%char, String "}"%char rest' => arg +:+ rest'
      | _, _ => String c (format rest arg)
      end
  end.

(** [needle in hay] on [str]. *)
Fixpoint contains (needle hay : string) : bool :=
  String.prefix needle hay ||
  match hay with
  | EmptyString => false
  | String _ hay' => contains needle hay'
  end.

(** Truth value of an optional path argument: [None] and [''] are falsy;
    a truthy value is handed on as the path it is. *)
Definition truthy (o : option string) : option string :=
  match o with
  | Some EmptyString | None => None
  | Some p => Some p
  end.

(** [os.path.join(a, b)] for a relative, non-empty [b]. *)
Fixpoint ends_with_sep (a : string) : bool :=
  match a with
  | EmptyString => false
  | String c EmptyString => Ascii.eqb c "/"
  | String _ a' => ends_with_sep a'
  end.

Definition path_join (a b : string) : string :=
  match a with
  | EmptyString => b
  | _ => if ends_with_sep a then a +:+ b else a +:+ "/" +:+ b
  end.

(** ** Exceptions and the harness monad *)

(** [ValueError] is what the two source files raise themselves;
    [ExternalError] stands for whatever else an external component
    raises. *)
Inductive exn : Type :=
| ValueError (msg : string)
| ExternalError (msg : string).

Section Monad.
Context {world event : Type}.

(** One run: what it returned or raised, the world it left, and the
    calls it made, oldest first. *)
Record run (A : Type) : Type :=
  Run { result : exn + A; after : world; emitted : list event }.
Global Arguments Run {A} _ _ _.
Global Arguments result {A} _.
Global Arguments after {A} _.
Global Arguments emitted {A} _.

Definition M (A : Type) : Type := world -> run A.

Definition ret {A} (a : A) : M A := fun w => Run (inr a) w [].

Definition raise {A} (e : exn) : M A := fun w => Run (inl e) w [].

Definition bind {A B} (m : M A) (f : A -> M B) : M B :=
  fun w =>
    match m w with
    | Run (inl e) w1 t1 => Run (inl e) w1 t1
    | Run (inr a) w1 t1 =>
        match f a w1 with
        | Run r w2 t2 => Run r w2 (t1 ++ t2)
        end
    end.

(** A call that only leaves a mark in the trace. *)
Definition emit (e : event) : M unit := fun w => Run (inr tt) w [e].

(** A call into an external component. *)
Definition external {A} (e : event) (op : world -> (exn + A) * world) : M A :=
  fun w => let '(r, w') := op w in Run r w' [e].

(** A call that returns nothing and may raise: seeding a generator,
    selecting or describing a device.  [raises w] is the exception the call
    ends in, if any.  What the call does to the library is determined by
    its arguments, which the trace records; [world] is kept as it is. *)
Definition attempt (e : event) (raises : world -> option exn) : M unit :=
  fun w =>
    match raises w with
    | Some x => Run (inl x) w [e]
    | None => Run (inr tt) w [e]
    end.
End Monad.

Arguments M : clear implicits.
Arguments run : clear implicits.

Declare Scope harness_scope.
Delimit Scope harness_scope with harness.
Notation "'let!' x ':=' m 'in' k" := (bind m (fun x => k))
  (at level 10, x pattern, m at level 100, k at level 200) : harness_scope.
Notation "'run!' m 'in' k" := (bind m (fun _ => k))
  (at level 10, m at level 100, k at level 200) : harness_scope.

(** ** Data of the harness *)

(** The [map_location] argument of [torch.load].
    [storage_cuda gpu] is [lambda storage, location: storage.cuda(gpu)],
    [storage_id] is [lambda storage, location: storage]. *)
Inductive remap : Type :=
| storage_cuda (gpu : Z)
| storage_id.

Inductive device : Type :=
| cuda_device (gpu : Z)
| cpu_device.

Section Harness.
Context {world model embedding loader optimizer logger evaluator_impl
         trainer float score : Type}.

(** The command line, as [get_args()] returns it. *)
Record Args : Type := {
  seed : Z;
  cuda : bool;
  gpu : Z;
  dataset : string;
  data_dir : string;
  word_vectors_file : string;
  word_vectors_dir : string;
  batch_size : Z;
  resume_snapshot : option string;
  lr : float;
  weight_decay : float;
  log_every : Z;
  patience : Z;
  save_path : string;
  trained_model : option string;
  epochs : Z;
  matrix_path : string
}.

(** [deepcopy(args)] with the three fields derived from the dataset. *)
Record Config : Type := {
  cfg_args : Args;
  cfg_dataset : loader;       (* the dataset of [train_iter] *)
  target_class : Z;
  words_num : Z
}.

(** An evaluator object.  An attribute the object does not have is
    [None]; [hasattr] tests for [Some]. *)
Record evaluator : Type := {
  ev_impl : evaluator_impl;
  is_multilabel : option bool;
  ignore_lengths : option bool
}.

Definition set_is_multilabel (ev : evaluator) (b : bool) : evaluator :=
  match is_multilabel ev with
  | Some _ => {| ev_impl := ev_impl ev; is_multilabel := Some b;
                 ignore_lengths := ignore_lengths ev |}
  | None => ev
  end.

Definition set_ignore_lengths (ev : evaluator) (b : bool) : evaluator :=
  match ignore_lengths ev with
  | Some _ => {| ev_impl := ev_impl ev; is_multilabel := is_multilabel ev;
                 ignore_lengths := Some b |}
  | None => ev
  end.

(** The [trainer_config] dictionary. *)
Record TrainerConfig : Type := {
  tc_optimizer : optimizer;
  tc_batch_size : Z;
  tc_log_interval : Z;
  tc_patience : Z;
  tc_model_outfile : string;
  tc_logger : logger;
  tc_ignore_lengths : bool;
  tc_is_multilabel : bool
}.

(** The arguments a trainer class is called with. *)
Record TrainerInit : Type := {
  ti_model : model;
  ti_embedding : option embedding;
  ti_train_loader : loader;
  ti_trainer_config : TrainerConfig;
  ti_train_evaluator : evaluator;
  ti_test_evaluator : evaluator;
  ti_dev_evaluator : option evaluator
}.

(** What [print] is given. *)
Inductive pyval : Type :=
| PyStr (s : string)
| PyInt (z : Z)
| PyNames (l : list string)
| PyScores (l : list score).

Inductive event : Type :=
| ev_manual_seed (s : Z)                  (* torch.manual_seed *)
| ev_cudnn_deterministic                  (* torch.backends.cudnn.deterministic = True *)
| ev_cuda_set_device (g : Z)              (* torch.cuda.set_device *)
| ev_torch_device (d : device)            (* torch.device("cuda", g), torch.device("cpu") *)
| ev_np_seed (s : Z)                      (* np.random.seed *)
| ev_random_seed (s : Z)                  (* random.seed *)
| ev_get_logger                           (* get_logger() *)
| ev_print (items : list pyval)
| ev_iters (name : string) (dir file vdir : string) (bs : Z) (d : device)
| ev_torch_load (path : string) (map_location : option remap)
| ev_HRCNN (c : Config)
| ev_model_cuda (m : model)
| ev_Adam (m : model) (lr wd : float)
| ev_get_evaluator (m : model) (e : option embedding) (l : loader) (bs dev : Z)
| ev_trainer_init (cls : string) (a : TrainerInit)
| ev_train (t : trainer) (epochs : Z)
| ev_get_scores (e : evaluator) (path : string).

Definition ext (A : Type) : Type := world -> (exn + A) * world.

(** A dataset class: what the script reads from
    [VulasDiffTokenHierarchical]. *)
Record dataset_class : Type := {
  IS_MULTILABEL : bool;
  iters : string -> string -> string -> Z -> device -> ext (loader * loader * loader)
}.

(** The components outside the two source files: the tensor library, the
    logging library, the dataset class, the model, the optimizer, the
    evaluator factory and the evaluators, the trainer class and its
    methods. *)
Record External : Type := {
  torch_manual_seed : Z -> world -> option exn;
  cuda_set_device : Z -> world -> option exn;
  torch_device : device -> world -> option exn;
  np_random_seed : Z -> world -> option exn;
  random_seed : Z -> world -> option exn;
  cuda_is_available : world -> bool;
  VulasDiffTokenHierarchical : dataset_class;
  NUM_CLASSES : loader -> Z;
  vocab_len : loader -> Z;                (* len(dataset.CODE_FIELD.vocab) *)
  dataset_len : loader -> Z;              (* len(iter.dataset) *)
  logging_getLogger : world -> logger;
  torch_load : string -> option remap -> ext model;
  HRCNN : Config -> ext model;
  model_cuda : model -> ext unit;
  Adam : model -> float -> float -> ext optimizer;
  get_evaluator : dataset_class -> model -> option embedding -> loader ->
                  Z -> Z -> ext evaluator;
  compute_metrics : evaluator -> string -> ext (list (string * score));
  DiffStringTrainer : TrainerInit -> ext trainer;
  train : trainer -> Z -> ext unit;
  snapshot_path : trainer -> option string
}.

Variable E : External.

Local Open Scope harness_scope.
Local Abbreviation M := (M world event).

(** *** common/train.py *)

Definition trainer_class : Type := TrainerInit -> ext trainer.

Definition trainer_map : gmap string trainer_class :=
  {[ "VulasDiff"%string := DiffStringTrainer E ]}.

Definition get_trainer (dataset_name : string) (m : model)
    (emb : option embedding) (train_loader : loader)
    (trainer_config : TrainerConfig)
    (train_evaluator test_evaluator : evaluator)
    (dev_evaluator : option evaluator) : M trainer :=
  match trainer_map !! dataset_name with
  | None => raise (ValueError (format "{} is not implemented." dataset_name))
  | Some cls =>
      let a := {| ti_model := m; ti_embedding := emb;
                  ti_train_loader := train_loader;
                  ti_trainer_config := trainer_config;
                  ti_train_evaluator := train_evaluator;
                  ti_test_evaluator := test_evaluator;
                  ti_dev_evaluator := dev_evaluator |} in
      external (ev_trainer_init dataset_name a) (cls a)
  end.

(** *** models/diff_token/hr_cnn/__main__.py *)

Definition ask {A} (f : world -> A) : M A := fun w => Run (inr (f w)) w [].

Definition get_logger : M logger :=
  run! emit ev_get_logger in ask (logging_getLogger E).

(** Modelled from the spec: [get_scores] of the evaluators
    ([common/evaluation.py] and the evaluator classes are not among the
    sources).  It computes a fixed, ordered set of named metrics over the
    bound split and "returns [(scores, metric_names)] as parallel ordered
    sequences".  The computation itself is [compute_metrics]. *)
Definition get_scores (ev : evaluator) (output_path : string)
    : M (list score * list string) :=
  let! table := external (ev_get_scores ev output_path)
                         (compute_metrics E ev output_path) in
  ret (snd <$> table, fst <$> table).

Definition evaluate_dataset (split_name : string) (dataset_cls : dataset_class)
    (m : model) (emb : option embedding) (ld : loader)
    (batch_size device : Z) (is_multilabel : bool) (matrix_path : string)
    : M unit :=
  let! saved_model_evaluator :=
    external (ev_get_evaluator m emb ld batch_size device)
             (get_evaluator E dataset_cls m emb ld batch_size device) in
  let saved_model_evaluator :=
    set_is_multilabel saved_model_evaluator is_multilabel in
  let saved_model_evaluator :=
    set_ignore_lengths saved_model_evaluator true in
  let! (scores, metric_names) :=
    get_scores saved_model_evaluator matrix_path in
  run! emit (ev_print [PyStr "Evaluation metrics for"; PyStr split_name]) in
  run! emit (ev_print [PyNames metric_names]) in
  emit (ev_print [PyScores scores]).

Definition dataset_map : gmap string dataset_class :=
  {[ "VulasDiffToken"%string := VulasDiffTokenHierarchical E ]}.

(** The local variables of the script that are live at line 149. *)
Record Locals : Type := {
  l_dataset_class : dataset_class;
  l_train_iter : loader;
  l_dev_iter : loader;
  l_test_iter : loader;
  l_model : model;
  l_trainer_config : TrainerConfig;
  l_train_evaluator : evaluator;
  l_test_evaluator : evaluator;
  l_dev_evaluator : evaluator
}.

(** The [map_location] the script passes for its device flag. *)
Definition map_location_of (args : Args) : remap :=
  if cuda args then storage_cuda (gpu args) else storage_id.

Definition load_remapped (args : Args) (path : string) : M model :=
  if cuda args
  then external (ev_torch_load path (Some (storage_cuda (gpu args))))
                (torch_load E path (Some (storage_cuda (gpu args))))
  else external (ev_torch_load path (Some storage_id))
                (torch_load E path (Some storage_id)).

(** Lines 61 to 78: seeding, device selection, logger.  The seeding calls
    raise for a seed outside the range the library takes, the device calls
    for an index it does not take; the script then ends there. *)
Definition configure (args : Args) : M (device * logger) :=
  run! attempt (ev_manual_seed (seed args))
               (torch_manual_seed E (seed args)) in
  run! emit ev_cudnn_deterministic in
  let! avail := ask (cuda_is_available E) in
  let! device :=
    (if avail && cuda args
     then run! attempt (ev_cuda_set_device (gpu args))
                       (cuda_set_device E (gpu args)) in
          run! attempt (ev_torch_device (cuda_device (gpu args)))
                       (torch_device E (cuda_device (gpu args))) in
          ret (cuda_device (gpu args))
     else run! attempt (ev_torch_device cpu_device)
                       (torch_device E cpu_device) in
          ret cpu_device) in
  let! avail := ask (cuda_is_available E) in
  run! (if avail && negb (cuda args)
        then emit (ev_print [PyStr "Warning: Using CPU for training"])
        else ret tt) in
  run! attempt (ev_np_seed (seed args)) (np_random_seed E (seed args)) in
  run! attempt (ev_random_seed (seed args)) (random_seed E (seed args)) in
  let! logger := get_logger in
  ret (device, logger).

(** Lines 61 to 147: everything up to the call of the trainer factory. *)
Definition prepare (args : Args) : M Locals :=
  let! (device, logger) := configure args in
  match dataset_map !! dataset args with
  | None => raise (ValueError "Unrecognized dataset")
  | Some dataset_class =>
      let! (train_iter, dev_iter, test_iter) :=
        external (ev_iters (dataset args) (data_dir args)
                           (word_vectors_file args) (word_vectors_dir args)
                           (batch_size args) device)
                 (iters dataset_class (data_dir args)
                        (word_vectors_file args) (word_vectors_dir args)
                        (batch_size args) device) in
      let config := {| cfg_args := args;
                       cfg_dataset := train_iter;
                       target_class := NUM_CLASSES E train_iter;
                       words_num := vocab_len E train_iter |} in
      run! emit (ev_print [PyStr "Dataset:"; PyStr (dataset args)]) in
      run! emit (ev_print [PyStr "No. of target classes:";
                           PyInt (NUM_CLASSES E train_iter)]) in
      run! emit (ev_print [PyStr "No. of train instances";
                           PyInt (dataset_len E train_iter)]) in
      run! emit (ev_print [PyStr "No. of dev instances";
                           PyInt (dataset_len E dev_iter)]) in
      run! emit (ev_print [PyStr "No. of test instances";
                           PyInt (dataset_len E test_iter)]) in
      let! m :=
        match truthy (resume_snapshot args) with
        | Some path => load_remapped args path
        | None =>
            let! m := external (ev_HRCNN config) (HRCNN E config) in
            run! (if cuda args
                  then external (ev_model_cuda m) (model_cuda E m)
                  else ret tt) in
            ret m
        end in
      let! optimizer :=
        external (ev_Adam m (lr args) (weight_decay args))
                 (Adam E m (lr args) (weight_decay args)) in
      let! train_evaluator :=
        external (ev_get_evaluator m None train_iter (batch_size args) (gpu args))
                 (get_evaluator E dataset_class m None train_iter
                                (batch_size args) (gpu args)) in
      let! test_evaluator :=
        external (ev_get_evaluator m None test_iter (batch_size args) (gpu args))
                 (get_evaluator E dataset_class m None test_iter
                                (batch_size args) (gpu args)) in
      let! dev_evaluator :=
        external (ev_get_evaluator m None dev_iter (batch_size args) (gpu args))
                 (get_evaluator E dataset_class m None dev_iter
                                (batch_size args) (gpu args)) in
      let train_evaluator :=
        set_is_multilabel train_evaluator (IS_MULTILABEL dataset_class) in
      let test_evaluator :=
        set_is_multilabel test_evaluator (IS_MULTILABEL dataset_class) in
      let dev_evaluator :=
        set_is_multilabel dev_evaluator (IS_MULTILABEL dataset_class) in
      let trainer_config :=
        {| tc_optimizer := optimizer;
           tc_batch_size := batch_size args;
           tc_log_interval := log_every args;
           tc_patience := patience args;
           tc_model_outfile := save_path args;
           tc_logger := logger;
           tc_ignore_lengths := true;
           tc_is_multilabel := IS_MULTILABEL dataset_class |} in
      let dev_evaluator := set_ignore_lengths dev_evaluator true in
      let test_evaluator := set_ignore_lengths test_evaluator true in
      ret {| l_dataset_class := dataset_class;
             l_train_iter := train_iter;
             l_dev_iter := dev_iter;
             l_test_iter := test_iter;
             l_model := m;
             l_trainer_config := trainer_config;
             l_train_evaluator := train_evaluator;
             l_test_evaluator := test_evaluator;
             l_dev_evaluator := dev_evaluator |}
  end.

(** Lines 151 to 161: train or load the pretrained model, then take the
    model the final evaluation runs on. *)
Definition select_model (args : Args) (t : trainer) (m : model) : M model :=
  let! m :=
    match truthy (trained_model args) with
    | None =>
        run! external (ev_train t (epochs args)) (train E t (epochs args)) in
        ret m
    | Some path => load_remapped args path
    end in
  match snapshot_path E t with
  | Some path => external (ev_torch_load path None) (torch_load E path None)
  | None => ret m
  end.

(** The evaluator as [evaluate_dataset] leaves it before scoring. *)
Definition tuned (ev : evaluator) (is_multilabel : bool) : evaluator :=
  set_ignore_lengths (set_is_multilabel ev is_multilabel) true.

(** The three lines [evaluate_dataset] prints. *)
Definition printed (split_name : string) (metric_names : list string)
    (scores : list score) : list event :=
  [ev_print [PyStr "Evaluation metrics for"; PyStr split_name];
   ev_print [PyNames metric_names];
   ev_print [PyScores scores]].

(** An attribute that is either absent or [True]. *)
Definition absent_or_true (a : option bool) : Prop :=
  a = None ∨ a = Some true.

(** Lines 163 to 168. *)
Definition final_evaluation (args : Args) (l : Locals) (m : model) : M unit :=
  run! evaluate_dataset "dev" (l_dataset_class l) m None (l_dev_iter l)
         (batch_size args) (gpu args) (IS_MULTILABEL (l_dataset_class l))
         (path_join (matrix_path args) "dev") in
  evaluate_dataset "test" (l_dataset_class l) m None (l_test_iter l)
    (batch_size args) (gpu args) (IS_MULTILABEL (l_dataset_class l))
    (path_join (matrix_path args) "test").

(** The device lines 67 to 71 select. *)
Definition selected_device (args : Args) (w : world) : device :=
  if cuda_is_available E w && cuda args
  then cuda_device (gpu args) else cpu_device.

(** The calls of lines 61 to 78 when none of them raises; they come
    before the look-up of the dataset name. *)
Definition preamble (args : Args) (w : world) : list event :=
  [ev_manual_seed (seed args); ev_cudnn_deterministic] ++
  (if cuda_is_available E w && cuda args
   then [ev_cuda_set_device (gpu args);
         ev_torch_device (cuda_device (gpu args))]
   else [ev_torch_device cpu_device]) ++
  (if cuda_is_available E w && negb (cuda args)
   then [ev_print [PyStr "Warning: Using CPU for training"]] else []) ++
  [ev_np_seed (seed args); ev_random_seed (seed args); ev_get_logger].

(** The calls that build or use a training resource: the dataset, the
    model, the optimizer, an evaluator or a trainer. *)
Definition allocates (e : event) : bool :=
  match e with
  | ev_iters _ _ _ _ _ _ | ev_torch_load _ _ | ev_HRCNN _ | ev_model_cuda _
  | ev_Adam _ _ _ | ev_get_evaluator _ _ _ _ _ | ev_trainer_init _ _
  | ev_train _ _ | ev_get_scores _ _ => true
  | _ => false
  end.

(** Lines 151 to 168: what the script does once it has a trainer. *)
Definition report (args : Args) (l : Locals) (t : trainer) : M unit :=
  let! m := select_model args t (l_model l) in
  final_evaluation args l m.

(** The script. *)
Definition main (args : Args) : M unit :=
  let! l := prepare args in
  let! t := get_trainer (dataset args) (l_model l) None (l_train_iter l)
              (l_trainer_config l) (l_train_evaluator l)
              (l_test_evaluator l) (Some (l_dev_evaluator l)) in
  report args l t.

End Harness.

(** ** The embedding cache ([UnknownWordVecCache]) *)

Module UnknownWordVecCache.
Section Cache.
(** Tensor components and the state of the framework's random number
    generator; [uniform lo hi g] draws one component from [[lo, hi)]. *)
Context {V rng : Type}.
Variable uniform : Q -> Q -> rng -> V * rng.

(** A tensor object: its size, and its components once they have been
    written ([torch.Tensor(size)] allocates without initialising). *)
Record tensor : Type := { t_size : list nat; t_data : option (list V) }.

(** Objects live in a store and are named by their position in it. *)
Definition ref : Type := nat.

Record state : Type := {
  cache : gmap (list nat) ref;     (* the class attribute [cache] *)
  heap : list tensor;
  gen : rng
}.

Definition init (g : rng) : state := {| cache := ∅; heap := []; gen := g |}.

Definition numel (size : list nat) : nat := foldr Nat.mul 1%nat size.

Fixpoint draw (n : nat) (g : rng) : list V * rng :=
  match n with
  | O => ([], g)
  | S n' =>
      let '(v, g1) := uniform (-(1 # 4))%Q (1 # 4)%Q g in
      let '(vs, g2) := draw n' g1 in
      (v :: vs, g2)
  end.

(** [cls.cache[size_tup] = torch.Tensor(size)] *)
Definition store_new (size_tup : list nat) (st : state) : state :=
  {| cache := <[size_tup := length (heap st)]> (cache st);
     heap := heap st ++ [{| t_size := size_tup; t_data := None |}];
     gen := gen st |}.

(** [cls.cache[size_tup].uniform_(-0.25, 0.25)] *)
Definition uniform_ (size_tup : list nat) (st : state) : state :=
  match cache st !! size_tup with
  | None => st
  | Some r =>
      match heap st !! r with
      | None => st
      | Some t =>
          let '(vs, g) := draw (numel (t_size t)) (gen st) in
          {| cache := cache st;
             heap := <[r := {| t_size := t_size t; t_data := Some vs |}]> (heap st);
             gen := g |}
      end
  end.

(** [unk(tensor)]: the object returned ([None] would be a [KeyError]) and
    the state left behind. *)
Definition unk (t : tensor) (st : state) : option ref * state :=
  let size_tup := t_size t in
  let st' :=
    match cache st !! size_tup with
    | None => uniform_ size_tup (store_new size_tup st)
    | Some _ => st
    end in
  (cache st' !! size_tup, st').

(** Any number of further requests. *)
Definition unk_all (ts : list tensor) (st : state) : state :=
  foldl (fun s t => snd (unk t s)) st ts.

(** Every cached reference names an object of the store, and no object is
    cached under two sizes. *)
Definition wf (st : state) : Prop :=
  (∀ s r, cache st !! s = Some r → (r < length (heap st))%nat) ∧
  (∀ s1 s2 r, cache st !! s1 = Some r → cache st !! s2 = Some r → s1 = s2).

(** The object a first request for [size_tup] creates. *)
Definition generated (size_tup : list nat) (g : rng) : tensor :=
  {| t_size := size_tup; t_data := Some (fst (draw (numel size_tup) g)) |}.
End Cache.
End UnknownWordVecCache.

(** ** The trainer's epoch loop *)

Module Trainer.
Section Loop.
Context {metric : Type}.
Variable improves : metric -> metric -> bool.
Variables patience epochs : nat.

(** Modelled from the spec: the trainer's states ([common/trainers] is
    not among the sources).  Section 4.4: "States: Idle →
    Training(epoch=i) → Evaluating(epoch=i) → {Training(epoch=i+1) |
    EarlyStopped | Completed}". *)
Inductive phase : Type :=
| Idle
| Training (epoch : nat)
| Evaluating (epoch : nat)
| EarlyStopped
| Completed.

(** Modelled from the spec: the trainer state, "current epoch, best-seen
    dev metric, patience counter, path to best snapshot".  The path is
    fixed during a run; [snapshot] is the epoch whose parameters the file
    at that path holds. *)
Record state : Type := {
  st_phase : phase;
  best : metric;
  counter : nat;
  snapshot : option nat
}.

Definition next (i : nat) : phase :=
  if (i <? epochs)%nat then Training (S i) else Completed.

Definition start (st : state) : state :=
  match st_phase st with
  | Idle => {| st_phase := next 0; best := best st; counter := counter st;
               snapshot := snapshot st |}
  | _ => st
  end.

(** Modelled from the spec: "each epoch performs one full pass over the
    training iterator", after which the dev evaluator runs. *)
Definition train_epoch (st : state) : state :=
  match st_phase st with
  | Training i => {| st_phase := Evaluating i; best := best st;
                     counter := counter st; snapshot := snapshot st |}
  | _ => st
  end.

(** Modelled from the spec: the dev evaluation at the epoch boundary
    (the trainer is not among the sources).  Section 4.4: "run the bound
    dev evaluator; compare its primary metric against the best metric seen
    so far"; "maintain a patience counter; increment when the dev metric
    fails to improve, reset to zero on improvement"; "On each improvement,
    persist the current model parameters to the configured snapshot path";
    terminal state "EarlyStopped (patience exceeded)".  Glossary:
    "Patience: number of consecutive non-improving evaluations tolerated
    before early stopping".  Section 8: "the trainer must halt at exactly
    the patience+1-th non-improving evaluation".  So [patience]
    evaluations in a row that fail to improve are tolerated and the loop
    stops when the counter exceeds the patience; that is the threshold the
    counter "reaches" in section 4.4.  [improves m best] is the comparison
    of the primary metric [m] with the best one seen. *)
Definition evaluate (st : state) (m : metric) : state :=
  match st_phase st with
  | Evaluating i =>
      if improves m (best st)
      then {| st_phase := next i; best := m; counter := 0;
              snapshot := Some i |}
      else
        let c := S (counter st) in
        {| st_phase := if (patience <? c)%nat then EarlyStopped else next i;
           best := best st; counter := c; snapshot := snapshot st |}
  | _ => st
  end.

(** Modelled from the spec: the epoch loop, over the dev metrics the
    evaluations produce, one per epoch. *)
Definition run_epochs (st : state) (ms : list metric) : state :=
  foldl (fun s m => evaluate (train_epoch s) m) st ms.

Definition halted (st : state) : bool :=
  match st_phase st with
  | EarlyStopped | Completed => true
  | _ => false
  end.

(** The loop stops early at exactly the [n]-th evaluation of [ms]. *)
Definition stops_at (st : state) (ms : list metric) (n : nat) : Prop :=
  (∀ j, (j < n)%nat → halted (run_epochs st (take j ms)) = false) ∧
  st_phase (run_epochs st (take n ms)) = EarlyStopped.
End Loop.
End Trainer.

(** ** A concrete environment

    A small world in which every external call succeeds; the world counts
    the calls made.  It serves to run the definitions on concrete
    inputs. *)

Module Sample.
Definition world : Type := nat.

Definition ok {A} (a : A) : world -> (exn + A) * world :=
  fun w => (inr a, S w).

Definition vulas : @dataset_class world string :=
  {| IS_MULTILABEL := false;
     iters := fun _ _ _ _ _ => ok ("train", "dev", "test")%string |}.

Definition metrics : list (string * Z) :=
  [("accuracy", 91); ("precision", 88); ("recall", 85); ("f1", 86)]%string.

Definition new_evaluator (l : string) : @evaluator string :=
  {| ev_impl := l; is_multilabel := Some true; ignore_lengths := Some false |}.

Definition env : @External world string unit string unit unit string string Z Z :=
  {| torch_manual_seed := fun _ _ => None;
     cuda_set_device := fun _ _ => None;
     torch_device := fun _ _ => None;
     np_random_seed := fun _ _ => None;
     random_seed := fun _ _ => None;
     cuda_is_available := fun _ => false;
     VulasDiffTokenHierarchical := vulas;
     NUM_CLASSES := fun _ => 2;
     vocab_len := fun _ => 1000;
     dataset_len := fun _ => 80;
     logging_getLogger := fun _ => tt;
     torch_load := fun path _ => ok path;
     HRCNN := fun _ => ok "hrcnn"%string;
     model_cuda := fun _ => ok tt;
     Adam := fun _ _ _ => ok tt;
     get_evaluator := fun _ _ _ l _ _ => ok (new_evaluator l);
     compute_metrics := fun _ _ => ok metrics;
     DiffStringTrainer := fun _ => ok "trainer"%string;
     train := fun _ _ => ok tt;
     snapshot_path := fun _ => Some "saves/best.pt"%string |}.

Definition args (name : string) (pretrained : option string)
    : @Args Z :=
  {| seed := 3435; cuda := false; gpu := 0; dataset := name;
     data_dir := "data"; word_vectors_file := "vectors.txt";
     word_vectors_dir := "embeddings"; batch_size := 10;
     resume_snapshot := None; lr := 1; weight_decay := 0;
     log_every := 10; patience := 5; save_path := "saves";
     trained_model := pretrained; epochs := 1;
     matrix_path := "matrix" |}.

(** The local variables [prepare] returns for [args "VulasDiffToken" None]. *)
Definition locals : @Locals world string string unit unit string :=
  {| l_dataset_class := vulas;
     l_train_iter := "train"; l_dev_iter := "dev"; l_test_iter := "test";
     l_model := "hrcnn";
     l_trainer_config :=
       {| tc_optimizer := tt; tc_batch_size := 10; tc_log_interval := 10;
          tc_patience := 5; tc_model_outfile := "saves"; tc_logger := tt;
          tc_ignore_lengths := true; tc_is_multilabel := false |};
     l_train_evaluator :=
       {| ev_impl := "train"; is_multilabel := Some false;
          ignore_lengths := Some false |};
     l_test_evaluator :=
       {| ev_impl := "test"; is_multilabel := Some false;
          ignore_lengths := Some true |};
     l_dev_evaluator :=
       {| ev_impl := "dev"; is_multilabel := Some false;
          ignore_lengths := Some true |} |}.

(** A toy generator for the cache: components are integers, the state is
    a counter. *)
Definition uniform (lo hi : Q) (g : Z) : Z * Z := (g, g + 1).

(** A tensor of a given size, as handed to [unk]. *)
Definition probe (size : list nat) : @UnknownWordVecCache.tensor Z :=
  {| UnknownWordVecCache.t_size := size;
     UnknownWordVecCache.t_data := None |}.

(** The cache as the class definition leaves it, with generator state 0. *)
Definition empty_cache : @UnknownWordVecCache.state Z Z :=
  UnknownWordVecCache.init 0.

(** A dev metric improves when it is strictly greater than the best. *)
Definition improves (m best : Z) : bool := best <? m.

(** A trainer about to run its first epoch. *)
Definition fresh : @Trainer.state Z :=
  {| Trainer.st_phase := Trainer.Training 1; Trainer.best := 0;
     Trainer.counter := 0; Trainer.snapshot := None |}.
End Sample.


(** ** Further notions used to state properties *)

Section Traces.
Context {model embedding loader optimizer logger evaluator_impl
         trainer float score : Type}.
Local Abbreviation event :=
  (@event model embedding loader optimizer logger evaluator_impl
          trainer float score).

Definition is_print (e : event) : bool :=
  match e with ev_print _ => true | _ => false end.

(** The number of lines a trace prints. *)
Fixpoint printed_lines (t : list event) : nat :=
  match t with
  | [] => 0%nat
  | e :: t' => ((if is_print e then 1 else 0) + printed_lines t')%nat
  end.

(** The calls that create the model or move it. *)
Definition is_load (e : event) : bool :=
  match e with ev_torch_load _ _ => true | _ => false end.

Definition is_construction (e : event) : bool :=
  match e with ev_HRCNN _ | ev_model_cuda _ => true | _ => false end.

(** The calls that belong to a trainer or to scoring. *)
Definition is_training (e : event) : bool :=
  match e with
  | ev_trainer_init _ _ | ev_train _ _ | ev_get_scores _ _ => true
  | _ => false
  end.
End Traces.

(** Every cached object has the size it is cached under and as many
    components as that size asks for. *)
Definition cache_shaped {V rng : Type}
    (st : @UnknownWordVecCache.state V rng) : Prop :=
  ∀ s r, UnknownWordVecCache.cache st !! s = Some r →
    ∃ vs, UnknownWordVecCache.heap st !! r =
            Some {| UnknownWordVecCache.t_size := s;
                    UnknownWordVecCache.t_data := Some vs |} ∧
          length vs = UnknownWordVecCache.numel s.

(** A command line that asks for the accelerator and resumes from a
    snapshot, on the sample machine, which has no accelerator. *)
Module SampleCuda.
Definition args : @Args Z :=
  {| seed := 3435; cuda := true; gpu := 1; dataset := "VulasDiffToken";
     data_dir := "data"; word_vectors_file := "vectors.txt";
     word_vectors_dir := "embeddings"; batch_size := 10;
     resume_snapshot := Some "resume.pt"%string; lr := 1; weight_decay := 0;
     log_every := 10; patience := 5; save_path := "saves";
     trained_model := None; epochs := 1;
     matrix_path := "matrix" |}.

(** The sample environment with another trainer behaviour. *)
Definition env_with (tr : string → Z → Sample.world → (exn + unit) * Sample.world)
    (sp : string → option string)
    : @External Sample.world string unit string unit unit string string Z Z :=
  {| torch_manual_seed := torch_manual_seed Sample.env;
     cuda_set_device := cuda_set_device Sample.env;
     torch_device := torch_device Sample.env;
     np_random_seed := np_random_seed Sample.env;
     random_seed := random_seed Sample.env;
     cuda_is_available := cuda_is_available Sample.env;
     VulasDiffTokenHierarchical := VulasDiffTokenHierarchical Sample.env;
     NUM_CLASSES := NUM_CLASSES Sample.env;
     vocab_len := vocab_len Sample.env;
     dataset_len := dataset_len Sample.env;
     logging_getLogger := logging_getLogger Sample.env;
     torch_load := torch_load Sample.env;
     HRCNN := HRCNN Sample.env;
     model_cuda := model_cuda Sample.env;
     Adam := Adam Sample.env;
     get_evaluator := get_evaluator Sample.env;
     compute_metrics := compute_metrics Sample.env;
     DiffStringTrainer := DiffStringTrainer Sample.env;
     train := tr;
     snapshot_path := sp |}.

(** Trainers without a [snapshot_path]. *)
Definition env_no_snapshot :=
  env_with (train Sample.env) (fun _ => None).

(** Trainers whose training diverges. *)
Definition env_failing :=
  env_with (fun _ _ w => (inl (ExternalError "loss diverged"), S w))
           (snapshot_path Sample.env).

(** What [prepare] returns for [args]: the model is the resumed one. *)
Definition locals : @Locals Sample.world string string unit unit string :=
  {| l_dataset_class := Sample.vulas;
     l_train_iter := "train"; l_dev_iter := "dev"; l_test_iter := "test";
     l_model := "resume.pt";
     l_trainer_config := l_trainer_config Sample.locals;
     l_train_evaluator := l_train_evaluator Sample.locals;
     l_test_evaluator := l_test_evaluator Sample.locals;
     l_dev_evaluator := l_dev_evaluator Sample.locals |}.
(** The calls of the seeding block on the sample machine. *)
Definition seeding
    : list (@event string unit string unit unit string string Z Z) :=
  [ev_manual_seed 3435; ev_cudnn_deterministic; ev_torch_device cpu_device;
   ev_np_seed 3435; ev_random_seed 3435; ev_get_logger].
End SampleCuda.


(** * Properties *)

(** ** Strings *)

Lemma prefix_app (n s : string) : String.prefix n (n +:+ s) = true.
Proof.
  induction n as [|c n IH]; simpl.
  - by destruct s.
  - destruct (ascii_dec c c); [exact IH | congruence].
Qed.

Lemma prefix_inv (n h : string) :
  String.prefix n h = true → ∃ suf, h = n +:+ suf.
Proof.
  revert h. induction n as [|c n IH]; intros h Hp.
  - by exists h.
  - destruct h as [|d h]; simpl in Hp; [done|].
    destruct (ascii_dec c d) as [->|]; [|done].
    destruct (IH _ Hp) as [suf ->]. by exists suf.
Qed.

(** [contains] is Python's substring test. *)
Lemma contains_spec (n h : string) :
  contains n h = true ↔ ∃ pre suf, h = pre +:+ n +:+ suf.
Proof.
  split.
  - induction h as [|d h IH]; cbn [contains]; intros Hc.
    + apply orb_true_iff in Hc as [Hp|]; [|done].
      destruct (prefix_inv _ _ Hp) as [suf ->]. by exists EmptyString, suf.
    + apply orb_true_iff in Hc as [Hp|Hc].
      * destruct (prefix_inv _ _ Hp) as [suf Hs]. by exists EmptyString, suf.
      * destruct (IH Hc) as (pre & suf & ->). by exists (String d pre), suf.
  - intros (pre & suf & ->). induction pre as [|d pre IH].
    + change (EmptyString +:+ n +:+ suf) with (n +:+ suf).
      destruct (n +:+ suf) eqn:Heq; cbn [contains];
        rewrite <- Heq, prefix_app; done.
    + change (String d pre +:+ n +:+ suf) with (String d (pre +:+ n +:+ suf)).
      cbn [contains]. rewrite IH. apply orb_true_r.
Qed.

Lemma format_not_implemented (n : string) :
  format "{} is not implemented." n = n +:+ " is not implemented.".
Proof. reflexivity. Qed.

(** ** The monad *)

Section MonadFacts.
Context {world event : Type}.
Local Abbreviation M := (M world event).

Lemma bind_raise {A B} (m : M A) (f : A → M B) w e w1 t1 :
  m w = Run (inl e) w1 t1 → bind m f w = Run (inl e) w1 t1.
Proof. unfold bind. by intros ->. Qed.

Lemma bind_return {A B} (m : M A) (f : A → M B) w a w1 t1 :
  m w = Run (inr a) w1 t1 →
  bind m f w =
  Run (result (f a w1)) (after (f a w1)) (t1 ++ emitted (f a w1)).
Proof. unfold bind. intros ->. by destruct (f a w1). Qed.

Lemma bind_inv {A B} (m : M A) (f : A → M B) w b w2 t :
  bind m f w = Run (inr b) w2 t →
  ∃ a w1 t1 t2,
    m w = Run (inr a) w1 t1 ∧ f a w1 = Run (inr b) w2 t2 ∧ t = t1 ++ t2.
Proof.
  unfold bind. destruct (m w) as [[e|a] w1 t1]; [done|].
  destruct (f a w1) as [r w2' t2] eqn:Hf. intros [= -> -> <-].
  by exists a, w1, t1, t2.
Qed.

Lemma emitted_bind {A B} (m : M A) (f : A → M B) (w : world) (e : event) :
  In e (emitted (bind m f w)) →
  In e (emitted (m w)) ∨ ∃ a w1, In e (emitted (f a w1)).
Proof.
  unfold bind. destruct (m w) as [[x|a] w1 t1]; simpl; [auto|].
  destruct (f a w1) as [r w2 t2] eqn:Hf; simpl.
  rewrite in_app_iff. intros [?|Hin]; [auto|].
  right. exists a, w1. by rewrite Hf.
Qed.

Lemma bind_prefix {A B} (m : M A) (f : A → M B) w :
  ∃ rest, emitted (bind m f w) = emitted (m w) ++ rest.
Proof.
  unfold bind. destruct (m w) as [[e|a] w1 t1]; simpl.
  - exists []. by rewrite app_nil_r.
  - destruct (f a w1) as [r w2 t2]. by exists t2.
Qed.

End MonadFacts.

(** ** The trainer factory and the entry script *)

Section HarnessFacts.
Context {world model embedding loader optimizer logger evaluator_impl
         trainer float score : Type}.
Local Abbreviation External :=
  (@External world model embedding loader optimizer logger evaluator_impl
             trainer float score).
Local Abbreviation evaluator := (@evaluator evaluator_impl).
Local Abbreviation Args := (@Args float).
Variable E : External.

Lemma trainer_map_lookup (name : string) :
  trainer_map E !! name =
  if decide (name = "VulasDiff") then Some (DiffStringTrainer E) else None.
Proof.
  unfold trainer_map. case_decide as Hn.
  - subst. apply lookup_singleton_eq.
  - apply lookup_singleton_ne. congruence.
Qed.

Lemma dataset_map_lookup (name : string) :
  dataset_map E !! name =
  if decide (name = "VulasDiffToken")
  then Some (VulasDiffTokenHierarchical E) else None.
Proof.
  unfold dataset_map. case_decide as Hn.
  - subst. apply lookup_singleton_eq.
  - apply lookup_singleton_ne. congruence.
Qed.

(** What [get_trainer] does with a name its map does not have. *)
Lemma get_trainer_miss name (m : model) (emb : option embedding)
    (tl : loader) (tc : TrainerConfig) (te se : evaluator)
    (de : option evaluator) (w : world) :
  trainer_map E !! name = None →
  get_trainer E name m emb tl tc te se de w =
  Run (inl (ValueError (name +:+ " is not implemented."))) w [].
Proof.
  intros Hm. unfold get_trainer. unfold trainer_class, ext in *.
  rewrite Hm. by rewrite format_not_implemented.
Qed.

(** C1.  The factory is meant to build a trainer for every name the
    script's [dataset_map] accepts.  It does not: the script accepts
    ['VulasDiffToken'] and nothing else, and for that name [get_trainer]
    raises [ValueError] without calling a constructor. *)
Theorem get_trainer_rejects_VulasDiffToken :
  dataset_map E !! "VulasDiffToken" = Some (VulasDiffTokenHierarchical E) ∧
  (∀ name, is_Some (dataset_map E !! name) → name = "VulasDiffToken") ∧
  ∀ (m : model) (emb : option embedding) (tl : loader) (tc : TrainerConfig)
    (te se : evaluator) (de : option evaluator) (w : world),
    get_trainer E "VulasDiffToken" m emb tl tc te se de w =
    Run (inl (ValueError "VulasDiffToken is not implemented.")) w [].
Proof.
  split; [|split].
  - by rewrite dataset_map_lookup.
  - intros name. rewrite dataset_map_lookup. case_decide; [done|].
    by intros [? ?].
  - intros. rewrite get_trainer_miss; [done|].
    by rewrite trainer_map_lookup.
Qed.

(** C3.  For a dataset name that is not a key of [trainer_map],
    [get_trainer] raises a [ValueError] whose message contains the name;
    it calls no constructor (it makes no call at all and leaves the world
    as it was). *)
Theorem get_trainer_unknown_name name (m : model) (emb : option embedding)
    (tl : loader) (tc : TrainerConfig) (te se : evaluator)
    (de : option evaluator) (w : world) :
  trainer_map E !! name = None →
  ∃ msg,
    result (get_trainer E name m emb tl tc te se de w) = inl (ValueError msg) ∧
    contains name msg = true ∧
    emitted (get_trainer E name m emb tl tc te se de w) = [] ∧
    after (get_trainer E name m emb tl tc te se de w) = w.
Proof.
  intros Hm. rewrite get_trainer_miss by done.
  exists (name +:+ " is not implemented."). repeat split.
  apply contains_spec. by exists EmptyString, " is not implemented.".
Qed.

(** The seeding block either runs through, and then its result, its
    trace and the world are as follows, or it ends in the exception of one
    of its calls, having made some first part of those calls. *)
Lemma configure_cases (args : Args) (w : world) :
  configure E args w =
    Run (inr (selected_device E args w, logging_getLogger E w)) w
        (preamble E args w) ∨
  ∃ e t rest,
    configure E args w = Run (inl e) w t ∧ preamble E args w = t ++ rest.
Proof.
  unfold configure, preamble, selected_device.
  cbv [bind attempt emit ask get_logger raise ret].
  repeat (cbv beta iota;
          match goal with
          | |- context [match ?x with _ => _ end] =>
              match type of x with
              | option exn => destruct x
              | bool => destruct x
              end
          end);
    first [ by left | right; eexists _, _, _; split; reflexivity ].
Qed.

Lemma configure_ok (args : Args) (w w' : world) (x : device * logger) t :
  configure E args w = Run (inr x) w' t →
  x = (selected_device E args w, logging_getLogger E w) ∧
  w' = w ∧ t = preamble E args w.
Proof.
  destruct (configure_cases args w) as [->|(e & t' & rest & -> & _)];
    [|done].
  by intros [= <- <- <-].
Qed.

Lemma configure_events (args : Args) (w : world) e :
  In e (emitted (configure E args w)) → In e (preamble E args w).
Proof.
  destruct (configure_cases args w) as [->|(x & t & rest & -> & ->)];
    simpl; [done|].
  intros Hin. apply in_app_iff. by left.
Qed.

Lemma preamble_allocates_nothing (args : Args) (w : world) :
  Forall (λ e, allocates e = false) (preamble E args w).
Proof.
  unfold preamble.
  destruct (cuda_is_available E w && cuda args);
    destruct (cuda_is_available E w && negb (cuda args));
    repeat constructor.
Qed.

(** The seeding block comes first: a run that gets through it has made
    exactly its calls before anything else, and a run that ends in it has
    made only some first part of them. *)
Lemma main_seeds_first (args : Args) (w : world) :
  (∃ rest, emitted (main E args w) = preamble E args w ++ rest) ∨
  (∃ rest, preamble E args w = emitted (main E args w) ++ rest).
Proof.
  unfold main, prepare.
  destruct (configure_cases args w) as [Hc|(e & t & rest & Hc & Hp)].
  - left.
    match goal with |- context [emitted (bind ?m ?f w)] =>
      destruct (bind_prefix m f w) as [r2 H2]; rewrite H2 end.
    match goal with |- context [emitted (bind ?m ?f w)] =>
      destruct (bind_prefix m f w) as [r1 H1]; rewrite H1 end.
    exists (r1 ++ r2). rewrite Hc. simpl. by rewrite <- app_assoc.
  - right. exists rest.
    erewrite bind_raise; [exact Hp|].
    erewrite bind_raise; [reflexivity|exact Hc].
Qed.

Lemma prepare_unrecognized (args : Args) (w w' : world)
    (x : device * logger) t :
  dataset_map E !! dataset args = None →
  configure E args w = Run (inr x) w' t →
  prepare E args w = Run (inl (ValueError "Unrecognized dataset")) w' t.
Proof.
  intros Hm Hc. unfold prepare.
  rewrite (bind_return _ _ _ _ _ _ Hc). destruct x as [d lg]. rewrite Hm.
  simpl. by rewrite app_nil_r.
Qed.

(** C5, as the code has it.  When the script reaches its dataset check,
    the seeding block having returned, with a name its [dataset_map] does
    not have, the error is the outcome of the run itself; only the seeding,
    the device selection and the logger set-up have happened, so no
    training resource has been built and the world is as it was; the
    message is the fixed text ['Unrecognized dataset'], whatever the
    name. *)
Theorem main_unrecognized_dataset (args : Args) (w w' : world)
    (x : device * logger) t :
  dataset_map E !! dataset args = None →
  configure E args w = Run (inr x) w' t →
  main E args w = Run (inl (ValueError "Unrecognized dataset")) w' t ∧
  w' = w ∧
  t = preamble E args w ∧
  Forall (λ e, allocates e = false) (emitted (main E args w)).
Proof.
  intros Hm Hc.
  assert (Hmain : main E args w =
    Run (inl (ValueError "Unrecognized dataset")) w' t).
  { unfold main. apply bind_raise. by eapply prepare_unrecognized. }
  destruct (configure_ok _ _ _ _ _ Hc) as (_ & -> & ->).
  repeat split; [exact Hmain|]. rewrite Hmain.
  apply preamble_allocates_nothing.
Qed.

(** With the factory as it is, no run of the script gets past line 149:
    either the preparation raises, or the factory does. *)
Lemma main_never_completes (args : Args) (w : world) :
  ∃ e w' t, main E args w = Run (inl e) w' t.
Proof.
  destruct (prepare E args w) as [[e|l] w1 t1] eqn:Hp.
  - exists e, w1, t1. unfold main. by apply bind_raise.
  - assert (Hd : dataset args = "VulasDiffToken").
    { destruct (decide (dataset args = "VulasDiffToken")) as [|Hn]; [done|].
      pose proof Hp as Hq. unfold prepare in Hq.
      apply bind_inv in Hq as (x & w0 & t0 & ? & Hc & _).
      rewrite (prepare_unrecognized _ _ _ _ _ (eq_trans
                 (dataset_map_lookup (dataset args))
                 (decide_False _ _ Hn)) Hc) in Hp.
      done. }
    unfold main. rewrite (bind_return _ _ _ _ _ _ Hp).
    erewrite bind_raise; [by eexists _, _, _|].
    rewrite Hd. apply get_trainer_miss.
    by rewrite trainer_map_lookup.
Qed.

(** *** Loading models *)

Lemma load_remapped_run (args : Args) (path : string) (w : world) :
  load_remapped E args path w =
  Run (fst (torch_load E path (Some (map_location_of args)) w))
      (snd (torch_load E path (Some (map_location_of args)) w))
      [ev_torch_load path (Some (map_location_of args))].
Proof.
  unfold load_remapped, map_location_of, external.
  destruct (cuda args); by destruct (torch_load _ _ _ _).
Qed.

(** Lines 151 to 161 taken by themselves, with a trainer at hand: after a
    training run with a trainer that has a [snapshot_path], they call
    [torch.load(trainer.snapshot_path)] with no [map_location]. *)
Theorem snapshot_reload_without_map_location (args : Args) (t : trainer)
    (m : model) (w w1 : world) (snap : string) :
  truthy (trained_model args) = None →
  snapshot_path E t = Some snap →
  train E t (epochs args) w = (inr tt, w1) →
  select_model E args t m w =
  Run (fst (torch_load E snap None w1)) (snd (torch_load E snap None w1))
      [ev_train t (epochs args); ev_torch_load snap None].
Proof.
  intros Ht Hs Htr. unfold select_model. rewrite Ht, Hs.
  cbv [bind external ret]. rewrite Htr.
  by destruct (torch_load E snap None w1).
Qed.

(** C9.  With a pretrained model path the trainer is not run and the
    model is loaded from that path; when the trainer has a
    [snapshot_path], the model just loaded is dropped, and the final
    evaluation runs on what [torch.load(trainer.snapshot_path)] returns. *)
Theorem pretrained_model_replaced_by_snapshot (args : Args) (l : Locals)
    (t : trainer) (w w1 w2 : world) (path snap : string) (m1 m2 : model) :
  truthy (trained_model args) = Some path →
  snapshot_path E t = Some snap →
  torch_load E path (Some (map_location_of args)) w = (inr m1, w1) →
  torch_load E snap None w1 = (inr m2, w2) →
  select_model E args t (l_model l) w =
    Run (inr m2) w2 [ev_torch_load path (Some (map_location_of args));
                     ev_torch_load snap None] ∧
  report E args l t w =
    Run (result (final_evaluation E args l m2 w2))
        (after (final_evaluation E args l m2 w2))
        ([ev_torch_load path (Some (map_location_of args));
          ev_torch_load snap None] ++
         emitted (final_evaluation E args l m2 w2)).
Proof.
  intros Ht Hs H1 H2.
  assert (Hsel : select_model E args t (l_model l) w =
    Run (inr m2) w2 [ev_torch_load path (Some (map_location_of args));
                     ev_torch_load snap None]).
  { unfold select_model. rewrite Ht, Hs.
    rewrite (bind_return _ _ w m1 w1
               [ev_torch_load path (Some (map_location_of args))]);
      [|by rewrite load_remapped_run, H1].
    unfold external. by rewrite H2. }
  split; [exact Hsel|]. unfold report. by rewrite (bind_return _ _ _ _ _ _ Hsel).
Qed.

(** *** Reporting *)

Lemma get_scores_run (ev : evaluator) (path : string) (w w' : world)
    (table : list (string * score)) :
  compute_metrics E ev path w = (inr table, w') →
  get_scores E ev path w =
  Run (inr (snd <$> table, fst <$> table)) w' [ev_get_scores ev path].
Proof.
  intros Hc. unfold get_scores. cbv [bind external ret]. by rewrite Hc.
Qed.

Lemma evaluate_dataset_run split (cls : dataset_class) (m : model)
    (emb : option embedding) (ld : loader) (bs dev : Z) (ml : bool)
    (path : string) (w w1 w2 : world) (ev : evaluator)
    (table : list (string * score)) :
  get_evaluator E cls m emb ld bs dev w = (inr ev, w1) →
  compute_metrics E (tuned ev ml) path w1 = (inr table, w2) →
  evaluate_dataset E split cls m emb ld bs dev ml path w =
  Run (inr tt) w2
      (ev_get_evaluator m emb ld bs dev :: ev_get_scores (tuned ev ml) path ::
       printed split (fst <$> table) (snd <$> table)).
Proof.
  intros Hev Hsc. unfold evaluate_dataset.
  rewrite (bind_return _ _ w ev w1 [ev_get_evaluator m emb ld bs dev]);
    [|unfold external; by rewrite Hev].
  fold (tuned ev ml).
  rewrite (bind_return _ _ w1 _ _ _ (get_scores_run _ _ _ _ _ Hsc)).
  reflexivity.
Qed.

(** C8.  Each of the two final evaluation calls prints the split name,
    then the list of metric names, then the list of metric values.  The two
    lists are the ones [get_scores] returned (values first, names second);
    they have the same length and, put side by side, they are the ordered
    table of named metrics the evaluator computed: the value at a position
    is the score of the name at that position. *)
Theorem final_evaluation_prints (args : Args) (l : Locals) (m : model)
    (w w1 w2 w3 w4 : world) (evd evt : evaluator)
    (tabd tabt : list (string * score)) :
  get_evaluator E (l_dataset_class l) m None (l_dev_iter l)
    (batch_size args) (gpu args) w = (inr evd, w1) →
  compute_metrics E (tuned evd (IS_MULTILABEL (l_dataset_class l)))
    (path_join (matrix_path args) "dev") w1 = (inr tabd, w2) →
  get_evaluator E (l_dataset_class l) m None (l_test_iter l)
    (batch_size args) (gpu args) w2 = (inr evt, w3) →
  compute_metrics E (tuned evt (IS_MULTILABEL (l_dataset_class l)))
    (path_join (matrix_path args) "test") w3 = (inr tabt, w4) →
  result (get_scores E (tuned evd (IS_MULTILABEL (l_dataset_class l)))
            (path_join (matrix_path args) "dev") w1)
    = inr (snd <$> tabd, fst <$> tabd) ∧
  result (get_scores E (tuned evt (IS_MULTILABEL (l_dataset_class l)))
            (path_join (matrix_path args) "test") w3)
    = inr (snd <$> tabt, fst <$> tabt) ∧
  final_evaluation E args l m w =
    Run (inr tt) w4
      (ev_get_evaluator m None (l_dev_iter l) (batch_size args) (gpu args) ::
       ev_get_scores (tuned evd (IS_MULTILABEL (l_dataset_class l)))
         (path_join (matrix_path args) "dev") ::
       printed "dev" (fst <$> tabd) (snd <$> tabd) ++
       ev_get_evaluator m None (l_test_iter l) (batch_size args) (gpu args) ::
       ev_get_scores (tuned evt (IS_MULTILABEL (l_dataset_class l)))
         (path_join (matrix_path args) "test") ::
       printed "test" (fst <$> tabt) (snd <$> tabt)) ∧
  length (fst <$> tabd) = length (snd <$> tabd) ∧
  zip (fst <$> tabd) (snd <$> tabd) = tabd ∧
  length (fst <$> tabt) = length (snd <$> tabt) ∧
  zip (fst <$> tabt) (snd <$> tabt) = tabt.
Proof.
  intros Hd Hsd Ht Hst.
  pose proof (evaluate_dataset_run "dev" _ _ _ _ _ _ _ _ _ _ _ _ _ Hd Hsd)
    as Rd.
  pose proof (evaluate_dataset_run "test" _ _ _ _ _ _ _ _ _ _ _ _ _ Ht Hst)
    as Rt.
  rewrite (get_scores_run _ _ _ _ _ Hsd), (get_scores_run _ _ _ _ _ Hst).
  rewrite !length_fmap, !zip_fst_snd.
  repeat split.
  unfold final_evaluation. rewrite (bind_return _ _ _ _ _ _ Rd), Rt.
  reflexivity.
Qed.

(** *** The [ignore_lengths] flag *)

Lemma set_ignore_lengths_true (ev : evaluator) :
  absent_or_true (ignore_lengths (set_ignore_lengths ev true)).
Proof.
  unfold set_ignore_lengths, absent_or_true.
  destruct (ignore_lengths ev) eqn:Hi; simpl; auto.
Qed.

Lemma set_ignore_lengths_keeps (ev : evaluator) (b : bool) :
  is_Some (ignore_lengths (set_ignore_lengths ev b)) ↔
  is_Some (ignore_lengths ev).
Proof.
  unfold set_ignore_lengths.
  destruct (ignore_lengths ev) eqn:Hi; simpl; [|by rewrite Hi].
  split; eauto.
Qed.

Lemma prepare_ignore_lengths (args : Args) (w w1 : world) (l : Locals) t1 :
  prepare E args w = Run (inr l) w1 t1 →
  tc_ignore_lengths (l_trainer_config l) = true ∧
  absent_or_true (ignore_lengths (l_dev_evaluator l)) ∧
  absent_or_true (ignore_lengths (l_test_evaluator l)).
Proof.
  unfold prepare. intros H.
  apply bind_inv in H as ([dev lg] & ? & ? & ? & _ & H & _).
  destruct (dataset_map E !! dataset args) as [cls|] eqn:Hm; [|done].
  apply bind_inv in H as ([[train_iter dev_iter] test_iter] & ? & ? & ? & _ & H & _).
  do 10 (apply bind_inv in H as (? & ? & ? & ? & _ & H & _)).
  injection H as <- _ _. simpl.
  auto using set_ignore_lengths_true.
Qed.

Lemma evaluate_dataset_ignore_lengths split (cls : dataset_class)
    (m : model) (emb : option embedding) (ld : loader) (bs dev : Z)
    (ml : bool) (path : string) (w : world) (ev : evaluator) (p : string) :
  In (ev_get_scores ev p)
     (emitted (evaluate_dataset E split cls m emb ld bs dev ml path w)) →
  absent_or_true (ignore_lengths ev).
Proof.
  unfold evaluate_dataset, get_scores.
  cbv [bind emit ret external].
  repeat case_match; simplify_eq; simpl; intros Hin;
    repeat (destruct Hin as [Hin|Hin]; simplify_eq); try done;
    auto using set_ignore_lengths_true.
Qed.

Lemma select_model_no_scores (args : Args) (t : trainer) (m : model)
    (w : world) (ev : evaluator) (p : string) :
  ¬ In (ev_get_scores ev p) (emitted (select_model E args t m w)).
Proof.
  unfold select_model. cbv [bind external ret load_remapped].
  repeat case_match; simplify_eq; simpl; intros Hin;
    repeat (destruct Hin as [Hin|Hin]; simplify_eq); done.
Qed.

(** C10.  Whatever the command line, the trainer configuration the script
    builds has [ignore_lengths] set, the dev and test evaluators handed to
    the trainer have the attribute set to [True] if they have it at all,
    and so has every evaluator whose scores the final report asks for. *)
Theorem ignore_lengths_forced (args : Args) (w w1 : world) (l : Locals) t1 :
  prepare E args w = Run (inr l) w1 t1 →
  tc_ignore_lengths (l_trainer_config l) = true ∧
  absent_or_true (ignore_lengths (l_dev_evaluator l)) ∧
  absent_or_true (ignore_lengths (l_test_evaluator l)) ∧
  ∀ (t : trainer) (w' : world) (ev : evaluator) (p : string),
    In (ev_get_scores ev p) (emitted (report E args l t w')) →
    absent_or_true (ignore_lengths ev).
Proof.
  intros Hp. destruct (prepare_ignore_lengths _ _ _ _ _ Hp) as (Hc & Hd & Ht).
  repeat split; try done.
  intros t w' ev p Hin. unfold report in Hin.
  apply emitted_bind in Hin as [Hin|(m & w2 & Hin)].
  { by apply select_model_no_scores in Hin. }
  unfold final_evaluation in Hin.
  apply emitted_bind in Hin as [Hin|(? & w3 & Hin)];
    by apply evaluate_dataset_ignore_lengths in Hin.
Qed.

End HarnessFacts.


(** ** The embedding cache *)

Section CacheFacts.
Import UnknownWordVecCache.
Context {V rng : Type}.
Variable uniform : Q → Q → rng → V * rng.
Local Abbreviation state := (@state V rng).
Local Abbreviation tensor := (@tensor V).
Local Abbreviation unk := (unk uniform).
Local Abbreviation unk_all := (unk_all uniform).
Implicit Types (st : state) (t : tensor) (s : list nat) (r : ref).

Lemma unk_hit st t r :
  cache st !! t_size t = Some r → unk t st = (Some r, st).
Proof. intros H. unfold unk, UnknownWordVecCache.unk. by rewrite !H. Qed.

Lemma unk_miss st t :
  cache st !! t_size t = None →
  unk t st =
  (Some (length (heap st)),
   {| cache := <[t_size t := length (heap st)]> (cache st);
      heap := heap st ++ [generated uniform (t_size t) (gen st)];
      gen := snd (draw uniform (numel (t_size t)) (gen st)) |}).
Proof.
  intros H. unfold unk, UnknownWordVecCache.unk, uniform_, store_new, generated.
  rewrite H. simpl. rewrite lookup_insert_eq.
  rewrite list_lookup_middle by done. simpl.
  destruct (draw uniform (numel (t_size t)) (gen st)) as [vs g]. simpl.
  rewrite lookup_insert_eq. do 2 f_equal.
  rewrite insert_app_r_alt by done. by rewrite Nat.sub_diag.
Qed.

Lemma unk_keeps st t s r :
  cache st !! s = Some r → (r < length (heap st))%nat →
  cache (snd (unk t st)) !! s = Some r ∧
  heap (snd (unk t st)) !! r = heap st !! r ∧
  (r < length (heap (snd (unk t st))))%nat.
Proof.
  intros Hs Hr. destruct (cache st !! t_size t) as [r'|] eqn:Ht.
  - by rewrite (unk_hit _ _ _ Ht).
  - rewrite (unk_miss _ _ Ht). simpl.
    assert (t_size t ≠ s) by congruence.
    rewrite lookup_insert_ne by done. rewrite lookup_app_l by done.
    rewrite length_app. simpl. repeat split; [done|lia].
Qed.

Lemma unk_wf st t : wf st → wf (snd (unk t st)).
Proof.
  intros [Hb Hi]. destruct (cache st !! t_size t) as [r'|] eqn:Ht.
  - by rewrite (unk_hit _ _ _ Ht).
  - rewrite (unk_miss _ _ Ht). split; simpl.
    + intros s r. rewrite length_app. simpl.
      destruct (decide (t_size t = s)) as [->|].
      * rewrite lookup_insert_eq. intros [= <-]. lia.
      * rewrite lookup_insert_ne by done. intros ?%Hb. lia.
    + intros s1 s2 r.
      destruct (decide (t_size t = s1)) as [<-|];
        destruct (decide (t_size t = s2)) as [<-|]; try done.
      * rewrite lookup_insert_eq, lookup_insert_ne by done.
        intros [= <-] ?%Hb. lia.
      * rewrite lookup_insert_eq, lookup_insert_ne by done.
        intros ?%Hb [= <-]. lia.
      * rewrite !lookup_insert_ne by done. apply Hi.
Qed.

Lemma unk_all_keeps (ts : list tensor) st s r :
  cache st !! s = Some r → (r < length (heap st))%nat →
  cache (unk_all ts st) !! s = Some r ∧
  heap (unk_all ts st) !! r = heap st !! r.
Proof.
  revert st. induction ts as [|t ts IH]; intros st Hs Hr; [done|].
  destruct (unk_keeps st t s r Hs Hr) as (Hs' & Hh & Hr').
  destruct (IH _ Hs' Hr') as [? Hh'].
  change (unk_all (t :: ts) st) with (unk_all ts (snd (unk t st))).
  by rewrite Hh', Hh.
Qed.

Lemma unk_all_wf (ts : list tensor) st : wf st → wf (unk_all ts st).
Proof.
  revert st. induction ts as [|t ts IH]; intros st Hw; [done|].
  apply IH, unk_wf, Hw.
Qed.

(** The states the cache can be in: the empty one and those [unk] leads
    to. *)
Lemma init_wf (g : rng) : wf (init g : state).
Proof.
  split; [intros s r|intros s1 s2 r]; simpl; by rewrite lookup_empty.
Qed.

Lemma reachable_wf (g : rng) (ts : list tensor) : wf (unk_all ts (init g)).
Proof. apply unk_all_wf, init_wf. Qed.

Lemma unk_returns st t : ∃ r, fst (unk t st) = Some r.
Proof.
  destruct (cache st !! t_size t) as [r|] eqn:Ht.
  - exists r. by rewrite (unk_hit _ _ _ Ht).
  - eexists. by rewrite (unk_miss _ _ Ht).
Qed.

(** C2.  A request for a size returns an object and leaves it cached under
    that size.  If the size was not cached, the object is new and holds
    freshly drawn components.  After any further requests, a request for
    the same size returns that very object, draws nothing and changes
    nothing, and the object still holds the components it had; a request
    for a different size returns a different object. *)
Theorem unk_memoizes st t :
  wf st →
  ∃ r,
    fst (unk t st) = Some r ∧
    cache (snd (unk t st)) !! t_size t = Some r ∧
    (cache st !! t_size t = None →
       heap st !! r = None ∧
       heap (snd (unk t st)) !! r = Some (generated uniform (t_size t) (gen st))) ∧
    ∀ (later : list tensor) (t' : tensor),
      let st' := unk_all later (snd (unk t st)) in
      (t_size t' = t_size t →
         unk t' st' = (Some r, st') ∧
         heap st' !! r = heap (snd (unk t st)) !! r) ∧
      (t_size t' ≠ t_size t → fst (unk t' st') ≠ Some r).
Proof.
  intros Hw.
  assert (∃ r, fst (unk t st) = Some r ∧
               cache (snd (unk t st)) !! t_size t = Some r ∧
               (cache st !! t_size t = None →
                  heap st !! r = None ∧
                  heap (snd (unk t st)) !! r
                    = Some (generated uniform (t_size t) (gen st))))
    as (r & Hr & Hc & Hnew).
  { destruct (cache st !! t_size t) as [r|] eqn:Ht.
    - exists r. rewrite (unk_hit _ _ _ Ht). by simpl.
    - eexists. rewrite (unk_miss _ _ Ht). simpl. rewrite lookup_insert_eq.
      split; [done|]. split; [done|]. intros _.
      split; [by apply lookup_ge_None|]. by apply list_lookup_middle. }
  exists r. split; [done|]. split; [done|]. split; [done|].
  intros later t' st'.
  pose proof (unk_wf _ t Hw) as Hw1.
  pose proof (unk_all_wf later _ Hw1) as Hw2.
  destruct (unk_all_keeps later _ _ _ Hc (proj1 Hw1 _ _ Hc)) as [Hc2 Hh2].
  fold st' in Hc2, Hh2, Hw2. split.
  - intros Heq. split; [|done]. apply unk_hit. by rewrite Heq.
  - intros Hne Hr'.
    pose proof (unk_wf _ t' Hw2) as Hw3.
    destruct (unk_keeps _ t' _ _ Hc2 (proj1 Hw2 _ _ Hc2)) as (Hc3 & _ & _).
    assert (Hc4 : cache (snd (unk t' st')) !! t_size t' = Some r)
      by (rewrite <- Hr'; done).
    apply Hne. by apply (proj2 Hw3 _ _ r).
Qed.
End CacheFacts.

(** ** The trainer's epoch loop *)

Section TrainerFacts.
Import Trainer.
Local Open Scope nat_scope.
Context {metric : Type}.
Variable improves : metric → metric → bool.
Variables patience epochs : nat.
Local Abbreviation state := (@state metric).
Local Abbreviation evaluate := (evaluate improves patience epochs).
Local Abbreviation run_epochs := (run_epochs improves patience epochs).
Local Abbreviation stops_at := (stops_at improves patience epochs).
Implicit Types (st : state) (m : metric) (ms : list metric).

Lemma run_epochs_app st ms1 ms2 :
  run_epochs st (ms1 ++ ms2) = run_epochs (run_epochs st ms1) ms2.
Proof. apply foldl_app. Qed.

(** On improvement the counter is reset and the snapshot is taken. *)
Lemma evaluate_improving st i m :
  st_phase st = Training i → improves m (best st) = true →
  evaluate (train_epoch st) m =
  {| st_phase := next epochs i; best := m; counter := 0; snapshot := Some i |}.
Proof.
  intros Hp Hi. unfold evaluate, Trainer.evaluate, train_epoch.
  rewrite Hp. simpl. by rewrite Hi.
Qed.

(** Otherwise the counter goes up by one and nothing else changes; the
    loop stops when the counter exceeds the patience. *)
Lemma evaluate_failing st i m :
  st_phase st = Training i → improves m (best st) = false →
  evaluate (train_epoch st) m =
  {| st_phase := if patience <? S (counter st) then EarlyStopped
                 else next epochs i;
     best := best st; counter := S (counter st); snapshot := snapshot st |}.
Proof.
  intros Hp Hi. unfold evaluate, Trainer.evaluate, train_epoch.
  rewrite Hp. simpl. by rewrite Hi.
Qed.

Lemma run_failing ms : ∀ st i,
  st_phase st = Training i →
  Forall (λ m, improves m (best st) = false) ms →
  counter st + length ms ≤ patience →
  i + length ms ≤ epochs →
  run_epochs st ms =
  {| st_phase := Training (i + length ms); best := best st;
     counter := counter st + length ms; snapshot := snapshot st |}.
Proof.
  induction ms as [|m ms IH]; intros st i Hp Hf Hc He; simpl in *.
  - rewrite !Nat.add_0_r, <- Hp. by destruct st.
  - inversion_clear Hf as [|? ? Hm Hms].
    change (run_epochs st (m :: ms))
      with (run_epochs (evaluate (train_epoch st) m) ms).
    rewrite (evaluate_failing _ _ _ Hp Hm).
    assert ((patience <? S (counter st)) = false) as ->
      by (apply Nat.ltb_ge; lia).
    unfold next. assert ((i <? epochs) = true) as -> by (apply Nat.ltb_lt; lia).
    rewrite (IH _ (S i)); simpl; [|done|done|lia|lia].
    f_equal; [f_equal|]; lia.
Qed.

(** C6.  After an improving evaluation the counter is zero and the
    snapshot is the one of that epoch; each following evaluation that
    fails to improve adds one to the counter; when [patience + 1]
    evaluations in a row fail to improve, the loop stops early at exactly
    the last of them, the [(patience + 1)]-th, and not before, and the
    snapshot is still the one of the improving epoch. *)
Theorem early_stop_after_patience st i m0 ms :
  st_phase st = Training i →
  improves m0 (best st) = true →
  Forall (λ m, improves m m0 = false) ms →
  length ms = S patience →
  i + S patience ≤ epochs →
  counter (run_epochs st [m0]) = 0 ∧
  snapshot (run_epochs st [m0]) = Some i ∧
  (∀ j, j ≤ S patience →
        counter (run_epochs (run_epochs st [m0]) (take j ms)) = j) ∧
  stops_at (run_epochs st [m0]) ms (S patience) ∧
  snapshot (run_epochs (run_epochs st [m0]) ms) = Some i.
Proof.
  intros Hp Hi Hf Hlen He.
  change (run_epochs st [m0]) with (evaluate (train_epoch st) m0).
  rewrite (evaluate_improving _ _ _ Hp Hi).
  unfold next. assert ((i <? epochs) = true) as -> by (apply Nat.ltb_lt; lia).
  set (st1 := {| st_phase := Training (S i); best := m0; counter := 0;
                 snapshot := Some i |}).
  assert (Hbefore : ∀ j, j ≤ patience →
    run_epochs st1 (take j ms) =
    {| st_phase := Training (S i + j); best := m0; counter := j;
       snapshot := Some i |}).
  { intros j Hj.
    rewrite (run_failing (take j ms) st1 (S i)); simpl; try done.
    - rewrite length_take. by replace (j `min` length ms) with j by lia.
    - by apply Forall_take.
    - rewrite length_take. lia.
    - rewrite length_take. lia. }
  assert (Hlast : run_epochs st1 (take (S patience) ms) =
    {| st_phase := EarlyStopped; best := m0; counter := S patience;
       snapshot := Some i |}).
  { destruct (lookup_lt_is_Some_2 ms patience) as [m Hm]; [lia|].
    rewrite (take_S_r _ _ _ Hm), run_epochs_app, Hbefore by lia.
    change (run_epochs ?s [m]) with (evaluate (train_epoch s) m).
    rewrite (evaluate_failing _ (S i + patience)); simpl; try done.
    - assert ((patience <? S patience) = true) as ->
        by (apply Nat.ltb_lt; lia).
      done.
    - rewrite Forall_lookup in Hf. by apply (Hf patience). }
  split; [done|]. split; [done|]. split; [|split].
  - intros j Hj. destruct (decide (j = S patience)) as [->|].
    + by rewrite Hlast.
    + by rewrite Hbefore by lia.
  - split.
    + intros j Hj. rewrite Hbefore by lia. done.
    + by rewrite Hlast.
  - rewrite <- (take_ge ms (S patience)) by lia. by rewrite Hlast.
Qed.
End TrainerFacts.

(** ** The script on the sample environment *)

Lemma get_trainer_unknown_name_witness :
  ∃ msg,
    result (get_trainer Sample.env "Reuters" "hrcnn" None "train"
              (l_trainer_config Sample.locals)
              (l_train_evaluator Sample.locals)
              (l_test_evaluator Sample.locals) None 0%nat)
      = inl (ValueError msg) ∧
    contains "Reuters" msg = true ∧
    emitted (get_trainer Sample.env "Reuters" "hrcnn" None "train"
               (l_trainer_config Sample.locals)
               (l_train_evaluator Sample.locals)
               (l_test_evaluator Sample.locals) None 0%nat) = [] ∧
    after (get_trainer Sample.env "Reuters" "hrcnn" None "train"
             (l_trainer_config Sample.locals)
             (l_train_evaluator Sample.locals)
             (l_test_evaluator Sample.locals) None 0%nat) = 0%nat.
Proof.
  apply (get_trainer_unknown_name Sample.env "Reuters").
  vm_compute. reflexivity.
Defined.

Lemma main_unrecognized_dataset_witness :
  main Sample.env (Sample.args "Reuters" None) 0%nat =
    Run (inl (ValueError "Unrecognized dataset")) 0%nat
        [ev_manual_seed 3435; ev_cudnn_deterministic;
         ev_torch_device cpu_device; ev_np_seed 3435; ev_random_seed 3435;
         ev_get_logger] ∧
  0%nat = 0%nat ∧
  [ev_manual_seed 3435; ev_cudnn_deterministic;
   ev_torch_device cpu_device; ev_np_seed 3435; ev_random_seed 3435;
   ev_get_logger] = preamble Sample.env (Sample.args "Reuters" None) 0%nat ∧
  Forall (λ e, allocates e = false)
         (emitted (main Sample.env (Sample.args "Reuters" None) 0%nat)).
Proof.
  apply (main_unrecognized_dataset Sample.env (Sample.args "Reuters" None)
           0%nat 0%nat (cpu_device, tt)).
  - vm_compute. reflexivity.
  - vm_compute. reflexivity.
Defined.

(** C5, as stated, fails: the script rejects the name ['Reuters'] with a
    message in which ['Reuters'] does not occur. *)
Lemma rejection_message_lacks_name :
  dataset_map Sample.env !! dataset (Sample.args "Reuters" None) = None ∧
  result (main Sample.env (Sample.args "Reuters" None) 0%nat)
    = inl (ValueError "Unrecognized dataset") ∧
  ¬ ∃ msg,
      result (main Sample.env (Sample.args "Reuters" None) 0%nat)
        = inl (ValueError msg) ∧
      contains "Reuters" msg = true.
Proof.
  split; [vm_compute; reflexivity|]. split; [vm_compute; reflexivity|].
  intros (msg & Hr & Hc). vm_compute in Hr. injection Hr as <-.
  vm_compute in Hc. discriminate.
Qed.

Lemma snapshot_reload_without_map_location_witness :
  select_model Sample.env (Sample.args "VulasDiffToken" None)
    "trainer" "hrcnn" 0%nat =
  Run (inr "saves/best.pt"%string) 2%nat
      [ev_train "trainer" 1; ev_torch_load "saves/best.pt" None].
Proof.
  apply (snapshot_reload_without_map_location Sample.env
           (Sample.args "VulasDiffToken" None) "trainer" "hrcnn"
           0%nat 1%nat "saves/best.pt"); reflexivity.
Defined.

Lemma pretrained_model_replaced_by_snapshot_witness :
  select_model Sample.env (Sample.args "VulasDiffToken" (Some "pre.pt"%string))
    "trainer" (l_model Sample.locals) 0%nat =
    Run (inr "saves/best.pt"%string) 2%nat
        [ev_torch_load "pre.pt" (Some storage_id);
         ev_torch_load "saves/best.pt" None] ∧
  report Sample.env (Sample.args "VulasDiffToken" (Some "pre.pt"%string))
    Sample.locals "trainer" 0%nat =
    Run (inr tt) 6%nat
        ([ev_torch_load "pre.pt" (Some storage_id);
          ev_torch_load "saves/best.pt" None] ++
         emitted (final_evaluation Sample.env
                    (Sample.args "VulasDiffToken" (Some "pre.pt"%string))
                    Sample.locals "saves/best.pt" 2%nat)).
Proof.
  apply (pretrained_model_replaced_by_snapshot Sample.env
           (Sample.args "VulasDiffToken" (Some "pre.pt"%string))
           Sample.locals "trainer" 0%nat 1%nat 2%nat "pre.pt" "saves/best.pt"
           "pre.pt" "saves/best.pt"); reflexivity.
Defined.

Lemma final_evaluation_prints_witness :
  result (get_scores Sample.env (l_dev_evaluator Sample.locals)
            "matrix/dev" 1%nat)
    = inr ([91; 88; 85; 86], ["accuracy"; "precision"; "recall"; "f1"]) ∧
  result (get_scores Sample.env (l_test_evaluator Sample.locals)
            "matrix/test" 3%nat)
    = inr ([91; 88; 85; 86], ["accuracy"; "precision"; "recall"; "f1"]) ∧
  final_evaluation Sample.env (Sample.args "VulasDiffToken" None)
    Sample.locals "best" 0%nat =
    Run (inr tt) 4%nat
      (ev_get_evaluator "best" None "dev" 10 0 ::
       ev_get_scores (l_dev_evaluator Sample.locals) "matrix/dev" ::
       printed "dev" ["accuracy"; "precision"; "recall"; "f1"]
               [91; 88; 85; 86] ++
       ev_get_evaluator "best" None "test" 10 0 ::
       ev_get_scores (l_test_evaluator Sample.locals) "matrix/test" ::
       printed "test" ["accuracy"; "precision"; "recall"; "f1"]
               [91; 88; 85; 86]) ∧
  length ["accuracy"; "precision"; "recall"; "f1"] = length [91; 88; 85; 86] ∧
  zip ["accuracy"; "precision"; "recall"; "f1"] [91; 88; 85; 86]
    = Sample.metrics ∧
  length ["accuracy"; "precision"; "recall"; "f1"] = length [91; 88; 85; 86] ∧
  zip ["accuracy"; "precision"; "recall"; "f1"] [91; 88; 85; 86]
    = Sample.metrics.
Proof.
  apply (final_evaluation_prints Sample.env
           (Sample.args "VulasDiffToken" None) Sample.locals "best"
           0%nat 1%nat 2%nat 3%nat 4%nat
           (Sample.new_evaluator "dev") (Sample.new_evaluator "test")
           Sample.metrics Sample.metrics);
    reflexivity.
Defined.

Lemma ignore_lengths_forced_witness :
  tc_ignore_lengths (l_trainer_config Sample.locals) = true ∧
  absent_or_true (ignore_lengths (l_dev_evaluator Sample.locals)) ∧
  absent_or_true (ignore_lengths (l_test_evaluator Sample.locals)) ∧
  ∀ (t : string) (w' : Sample.world) (ev : @evaluator string) (p : string),
    In (ev_get_scores ev p)
       (emitted (report Sample.env (Sample.args "VulasDiffToken" None)
                   Sample.locals t w')) →
    absent_or_true (ignore_lengths ev).
Proof.
  eapply (ignore_lengths_forced Sample.env
            (Sample.args "VulasDiffToken" None) 0%nat).
  vm_compute. reflexivity.
Defined.

(** ** The cache and the trainer on sample inputs *)

Lemma unk_memoizes_witness :
  ∃ r,
    fst (UnknownWordVecCache.unk Sample.uniform (Sample.probe [2; 3]%nat)
           Sample.empty_cache) = Some r ∧
    UnknownWordVecCache.cache
      (snd (UnknownWordVecCache.unk Sample.uniform (Sample.probe [2; 3]%nat)
              Sample.empty_cache)) !! [2; 3]%nat = Some r ∧
    (UnknownWordVecCache.cache Sample.empty_cache !! [2; 3]%nat
       = (None : option nat) →
     UnknownWordVecCache.heap Sample.empty_cache !! r = None ∧
     UnknownWordVecCache.heap
       (snd (UnknownWordVecCache.unk Sample.uniform (Sample.probe [2; 3]%nat)
               Sample.empty_cache)) !! r
       = Some (UnknownWordVecCache.generated Sample.uniform [2; 3]%nat 0)) ∧
    ∀ (later : list UnknownWordVecCache.tensor)
      (t' : UnknownWordVecCache.tensor),
      let st' :=
        UnknownWordVecCache.unk_all Sample.uniform later
          (snd (UnknownWordVecCache.unk Sample.uniform
                  (Sample.probe [2; 3]%nat) Sample.empty_cache)) in
      (UnknownWordVecCache.t_size t' = [2; 3]%nat →
         UnknownWordVecCache.unk Sample.uniform t' st' = (Some r, st') ∧
         UnknownWordVecCache.heap st' !! r =
         UnknownWordVecCache.heap
           (snd (UnknownWordVecCache.unk Sample.uniform
                   (Sample.probe [2; 3]%nat) Sample.empty_cache))
           !! r) ∧
      (UnknownWordVecCache.t_size t' ≠ [2; 3]%nat →
         fst (UnknownWordVecCache.unk Sample.uniform t' st') ≠ Some r).
Proof.
  apply (unk_memoizes Sample.uniform Sample.empty_cache
           (Sample.probe [2; 3]%nat)).
  apply init_wf.
Defined.

(** Three requests, for sizes [3], [2] and [3] again. *)
Example unk_three_requests :
  let unk := UnknownWordVecCache.unk Sample.uniform in
  let st1 := snd (unk (Sample.probe [3%nat]) Sample.empty_cache) in
  let st2 := snd (unk (Sample.probe [2%nat]) st1) in
  fst (unk (Sample.probe [3%nat]) Sample.empty_cache) = Some 0%nat ∧
  fst (unk (Sample.probe [2%nat]) st1) = Some 1%nat ∧
  fst (unk (Sample.probe [3%nat]) st2) = Some 0%nat ∧
  UnknownWordVecCache.heap (snd (unk (Sample.probe [3%nat]) st2)) =
    [ {| UnknownWordVecCache.t_size := [3%nat];
         UnknownWordVecCache.t_data := Some [0; 1; 2] |};
      {| UnknownWordVecCache.t_size := [2%nat];
         UnknownWordVecCache.t_data := Some [3; 4] |} ].
Proof. vm_compute. done. Qed.

Lemma early_stop_after_patience_witness :
  Trainer.counter
    (Trainer.run_epochs Sample.improves 2 10 Sample.fresh [5]) = 0%nat ∧
  Trainer.snapshot
    (Trainer.run_epochs Sample.improves 2 10 Sample.fresh [5]) = Some 1%nat ∧
  (∀ j, (j ≤ 3)%nat →
     Trainer.counter
       (Trainer.run_epochs Sample.improves 2 10
          (Trainer.run_epochs Sample.improves 2 10 Sample.fresh [5])
          (take j [1; 1; 1])) = j) ∧
  Trainer.stops_at Sample.improves 2 10
    (Trainer.run_epochs Sample.improves 2 10 Sample.fresh [5]) [1; 1; 1] 3 ∧
  Trainer.snapshot
    (Trainer.run_epochs Sample.improves 2 10
       (Trainer.run_epochs Sample.improves 2 10 Sample.fresh [5]) [1; 1; 1])
    = Some 1%nat.
Proof.
  apply (early_stop_after_patience Sample.improves 2 10 Sample.fresh 1%nat 5
           [1; 1; 1]);
    try reflexivity; try lia.
  repeat constructor.
Defined.


(** * Further properties of the code *)

(** ** Strings *)

Lemma length_append (a b : string) :
  String.length (a +:+ b) = (String.length a + String.length b)%nat.
Proof. induction a as [|c a IH]; simpl; [done|]. by rewrite IH. Qed.

Lemma append_cancel_r (a b s : string) : a +:+ s = b +:+ s → a = b.
Proof.
  revert b. induction a as [|c a IH]; intros [|d b] H.
  - done.
  - apply (f_equal String.length) in H.
    rewrite !length_append in H. simpl in H. lia.
  - apply (f_equal String.length) in H.
    rewrite !length_append in H. simpl in H. lia.
  - injection H as -> H. f_equal. by apply IH.
Qed.

Lemma append_cancel_l (p a b : string) : p +:+ a = p +:+ b → a = b.
Proof. induction p as [|c p IH]; simpl; [done|]. intros [= H]. by apply IH. Qed.

Lemma path_join_shape (a b : string) :
  ∃ p, (∀ b', path_join a b' = p +:+ b') ∧
       (p = EmptyString ∨ p = a ∨ p = a +:+ "/").
Proof.
  unfold path_join. destruct a as [|c a].
  - exists EmptyString. split; [intros; reflexivity|auto].
  - destruct (ends_with_sep (String c a)).
    + exists (String c a). split; [intros; reflexivity|auto].
    + exists (String c a +:+ "/"). split; [|auto].
      intros b'. generalize (String c a). intros x.
      induction x as [|d x IH]; [reflexivity|].
      change (String d x +:+ "/" +:+ b' = String d ((x +:+ "/") +:+ b')).
      change (String d (x +:+ "/" +:+ b') = String d ((x +:+ "/") +:+ b')).
      by rewrite IH.
Qed.

Lemma path_join_injective (a b1 b2 : string) :
  path_join a b1 = path_join a b2 → b1 = b2.
Proof.
  destruct (path_join_shape a b1) as (p & Hp & _).
  rewrite !Hp. apply append_cancel_l.
Qed.

(** X1.  Whatever [matrix_path] is, the dev report and the test report
    of a run are written to different paths. *)
Theorem dev_and_test_paths_differ (matrix : string) :
  path_join matrix "dev" ≠ path_join matrix "test".
Proof. by intros ?%path_join_injective. Qed.

Lemma dev_and_test_paths_differ_witness :
  path_join "matrix/" "dev" ≠ path_join "matrix/" "test".
Proof. apply (dev_and_test_paths_differ "matrix/"). Defined.

(** ** More on the monad *)

Section MonadMore.
Context {world event : Type}.
Local Abbreviation M := (M world event).

Lemma emitted_bind_inv {A B} (m : M A) (f : A → M B) (w : world) (e : event) :
  In e (emitted (bind m f w)) →
  In e (emitted (m w)) ∨
  ∃ a, result (m w) = inr a ∧ In e (emitted (f a (after (m w)))).
Proof.
  unfold bind. destruct (m w) as [[x|a] w1 t1]; simpl; [auto|].
  destruct (f a w1) as [r w2 t2] eqn:Hf; simpl.
  rewrite in_app_iff. intros [?|Hin]; [auto|].
  right. exists a. by rewrite Hf.
Qed.

Lemma external_run {A} (e : event) (op : world → (exn + A) * world) w :
  external e op w = Run (fst (op w)) (snd (op w)) [e].
Proof. unfold external. by destruct (op w). Qed.

Lemma external_inv {A} (e : event) (op : world → (exn + A) * world)
    w r w1 t :
  external e op w = Run r w1 t → op w = (r, w1) ∧ t = [e].
Proof. rewrite external_run. destruct (op w). by intros [= -> -> <-]. Qed.

Lemma bind_emit {B} (e : event) (f : unit → M B) w :
  bind (emit e) f w =
  Run (result (f tt w)) (after (f tt w)) (e :: emitted (f tt w)).
Proof. unfold bind, emit. by destruct (f tt w). Qed.

Lemma bind_run {A B} (m : M A) (f : A → M B) w :
  bind m f w =
  match result (m w) with
  | inl e => Run (inl e) (after (m w)) (emitted (m w))
  | inr a => Run (result (f a (after (m w)))) (after (f a (after (m w))))
                 (emitted (m w) ++ emitted (f a (after (m w))))
  end.
Proof.
  unfold bind. destruct (m w) as [[e|a] w1 t1]; simpl; [done|].
  by destruct (f a w1).
Qed.
End MonadMore.

(** ** More on the factory and the script *)

Section HarnessMore.
Context {world model embedding loader optimizer logger evaluator_impl
         trainer float score : Type}.
Local Abbreviation External :=
  (@External world model embedding loader optimizer logger evaluator_impl
             trainer float score).
Local Abbreviation evaluator := (@evaluator evaluator_impl).
Local Abbreviation Args := (@Args float).
Local Abbreviation event :=
  (@event model embedding loader optimizer logger evaluator_impl
          trainer float score).
Variable E : External.

(** X2.  [get_trainer] either knows the name, and then calls the trainer
    class once, with the arguments in the order it was given them, and
    returns or raises what that call does; or it does not, and then it
    raises its [ValueError] and calls nothing.  The only name it knows is
    ['VulasDiff']. *)
Theorem get_trainer_fails_closed name (m : model) (emb : option embedding)
    (tl : loader) (tc : TrainerConfig) (te se : evaluator)
    (de : option evaluator) (w : world) :
  let a := {| ti_model := m; ti_embedding := emb; ti_train_loader := tl;
              ti_trainer_config := tc; ti_train_evaluator := te;
              ti_test_evaluator := se; ti_dev_evaluator := de |} in
  (name = "VulasDiff" ∧
   get_trainer E name m emb tl tc te se de w =
   Run (fst (DiffStringTrainer E a w)) (snd (DiffStringTrainer E a w))
       [ev_trainer_init "VulasDiff" a]) ∨
  (name ≠ "VulasDiff" ∧
   get_trainer E name m emb tl tc te se de w =
   Run (inl (ValueError (name +:+ " is not implemented."))) w []).
Proof.
  intros a. destruct (decide (name = "VulasDiff")) as [->|Hn].
  - left. split; [done|]. unfold get_trainer.
    pose proof (trainer_map_lookup E "VulasDiff") as Hl.
    unfold trainer_class, ext in *. rewrite Hl. simpl.
    apply external_run.
  - right. split; [done|]. apply get_trainer_miss.
    pose proof (trainer_map_lookup E name) as Hl.
    by rewrite decide_False in Hl.
Qed.

(** X3.  The factory's error tells rejected names apart: two different
    names that it rejects are rejected with different errors. *)
Theorem get_trainer_error_names_the_dataset name1 name2
    (m : model) (emb : option embedding) (tl : loader) (tc : TrainerConfig)
    (te se : evaluator) (de : option evaluator) (w1 w2 : world) :
  trainer_map E !! name1 = None →
  trainer_map E !! name2 = None →
  name1 ≠ name2 →
  result (get_trainer E name1 m emb tl tc te se de w1) ≠
  result (get_trainer E name2 m emb tl tc te se de w2).
Proof.
  intros H1 H2 Hne. rewrite !get_trainer_miss by done. simpl.
  intros [= H]. by apply append_cancel_r in H.
Qed.

(** X4.  Setting an attribute under a [hasattr] guard never gives an
    object an attribute it lacks, leaves the other attribute and the
    object itself alone, and the two settings commute; setting twice is
    setting the last value. *)
Theorem guarded_setattr (ev : evaluator) (b c : bool) :
  (is_Some (is_multilabel (set_is_multilabel ev b)) ↔
   is_Some (is_multilabel ev)) ∧
  (is_Some (ignore_lengths (set_ignore_lengths ev b)) ↔
   is_Some (ignore_lengths ev)) ∧
  ignore_lengths (set_is_multilabel ev b) = ignore_lengths ev ∧
  is_multilabel (set_ignore_lengths ev b) = is_multilabel ev ∧
  ev_impl (set_is_multilabel ev b) = ev_impl ev ∧
  ev_impl (set_ignore_lengths ev b) = ev_impl ev ∧
  set_is_multilabel (set_ignore_lengths ev c) b =
    set_ignore_lengths (set_is_multilabel ev b) c ∧
  set_ignore_lengths (set_ignore_lengths ev b) c = set_ignore_lengths ev c ∧
  set_is_multilabel (set_is_multilabel ev b) c = set_is_multilabel ev c.
Proof.
  destruct ev as [i [ml|] [il|]];
    unfold set_is_multilabel, set_ignore_lengths; simpl;
    repeat split; eauto; intros [? [=]].
Qed.

(** X5.  When the seeding block returns, the accelerator has been
    selected, and [torch.cuda.set_device] called, exactly when it is
    available and asked for; the warning has been printed exactly when it
    is available and not asked for.  Asking for an accelerator that is not
    there silently gives the CPU. *)
Theorem device_selection (args : Args) (w w' : world)
    (x : device * logger) t :
  configure E args w = Run (inr x) w' t →
  x = (if cuda_is_available E w && cuda args
       then cuda_device (gpu args) else cpu_device,
       logging_getLogger E w) ∧
  w' = w ∧
  (∀ g, In (ev_cuda_set_device g) t ↔
        cuda_is_available E w = true ∧ cuda args = true ∧ g = gpu args) ∧
  (In (ev_print [PyStr "Warning: Using CPU for training"]) t ↔
   cuda_is_available E w = true ∧ cuda args = false).
Proof.
  intros Hc. destruct (configure_ok E _ _ _ _ _ Hc) as (-> & -> & ->).
  unfold selected_device, preamble. simpl.
  split; [done|]. split; [done|].
  destruct (cuda_is_available E w), (cuda args); simpl; split.
  all: try (intros g; split; [intros Hin|intros (? & ? & ->)]).
  all: try (split; [intros Hin|intros [? ?]]).
  all: repeat (destruct Hin as [Hin|Hin]; simplify_eq); try done; auto.
Qed.

(** *** What a successful preparation has done *)

Lemma emit_inv (e : event) (w w1 : world) (r : exn + unit) t :
  emit e w = Run r w1 t → w1 = w.
Proof. unfold emit. by intros [= _ <- _]. Qed.

Lemma external_ok {A} (e : event) (op : world → (exn + A) * world)
    w a w1 t :
  external e op w = Run (inr a) w1 t → op w = (inr a, w1).
Proof. intros H. by apply external_inv in H as [? _]. Qed.

Lemma prepare_inv (args : Args) (w w1 : world) (l : Locals) t1 :
  prepare E args w = Run (inr l) w1 t1 →
  let cls := VulasDiffTokenHierarchical E in
  let dev := if cuda_is_available E w && cuda args
             then cuda_device (gpu args) else cpu_device in
  ∃ tr dv te wa m wb opt wc e1 wd e2 we e3,
    dataset args = "VulasDiffToken" ∧
    iters cls (data_dir args) (word_vectors_file args)
      (word_vectors_dir args) (batch_size args) dev w
      = (inr (tr, dv, te), wa) ∧
    ((∃ path, truthy (resume_snapshot args) = Some path ∧
              torch_load E path (Some (map_location_of args)) wa
                = (inr m, wb)) ∨
     (truthy (resume_snapshot args) = None ∧
      ∃ w',
        HRCNN E {| cfg_args := args; cfg_dataset := tr;
                   target_class := NUM_CLASSES E tr;
                   words_num := vocab_len E tr |} wa = (inr m, w') ∧
        if cuda args then model_cuda E m w' = (inr tt, wb) else wb = w')) ∧
    Adam E m (lr args) (weight_decay args) wb = (inr opt, wc) ∧
    get_evaluator E cls m None tr (batch_size args) (gpu args) wc
      = (inr e1, wd) ∧
    get_evaluator E cls m None te (batch_size args) (gpu args) wd
      = (inr e2, we) ∧
    get_evaluator E cls m None dv (batch_size args) (gpu args) we
      = (inr e3, w1) ∧
    l = {| l_dataset_class := cls;
           l_train_iter := tr; l_dev_iter := dv; l_test_iter := te;
           l_model := m;
           l_trainer_config :=
             {| tc_optimizer := opt;
                tc_batch_size := batch_size args;
                tc_log_interval := log_every args;
                tc_patience := patience args;
                tc_model_outfile := save_path args;
                tc_logger := logging_getLogger E w;
                tc_ignore_lengths := true;
                tc_is_multilabel := IS_MULTILABEL cls |};
           l_train_evaluator := set_is_multilabel e1 (IS_MULTILABEL cls);
           l_test_evaluator :=
             set_ignore_lengths (set_is_multilabel e2 (IS_MULTILABEL cls)) true;
           l_dev_evaluator :=
             set_ignore_lengths (set_is_multilabel e3 (IS_MULTILABEL cls)) true
        |}.
Proof.
  intros H cls dev.
  unfold prepare in H.
  apply bind_inv in H as ([dev' lg] & w0 & ? & ? & Hc & H & _).
  apply configure_ok in Hc as ([= -> ->] & -> & _).
  rewrite dataset_map_lookup in H.
  destruct (decide (dataset args = "VulasDiffToken")) as [Hd|Hn]; [|done].
  apply bind_inv in H as ([[tr dv] te] & wa & ? & ? & Hit%external_ok & H & _).
  do 5 (apply bind_inv in H as (? & ? & ? & ? & ->%emit_inv & H & _)).
  apply bind_inv in H as (m & wb & ? & ? & Hm & H & _).
  apply bind_inv in H as (opt & wc & ? & ? & Ho%external_ok & H & _).
  apply bind_inv in H as (e1 & wd & ? & ? & H1%external_ok & H & _).
  apply bind_inv in H as (e2 & we & ? & ? & H2%external_ok & H & _).
  apply bind_inv in H as (e3 & wf & ? & ? & H3%external_ok & H & _).
  injection H as <- <- _.
  exists tr, dv, te, wa, m, wb, opt, wc, e1, wd, e2, we, e3.
  repeat split; try done.
  destruct (truthy (resume_snapshot args)) as [path|] eqn:Hr.
  - left. exists path. split; [done|].
    rewrite load_remapped_run in Hm. injection Hm as Hf Hs _.
    destruct (torch_load E path _ wa). simpl in *. by subst.
  - right. split; [done|].
    apply bind_inv in Hm as (m' & w' & ? & ? & Hh%external_ok & Hm & _).
    apply bind_inv in Hm as ([] & w'' & ? & ? & Hcu & Hm & _).
    injection Hm as <- <- _. exists w'. split; [done|].
    destruct (cuda args).
    + by apply external_ok in Hcu.
    + by injection Hcu as <- _.
Qed.

(** X6.  The preparation succeeds only for the dataset name
    ['VulasDiffToken']; the class is then [VulasDiffTokenHierarchical] and
    the three iterators are the ones its [iters] returned for the device
    that was selected. *)
Theorem prepare_accepts_one_dataset (args : Args) (w w1 : world)
    (l : Locals) t1 :
  prepare E args w = Run (inr l) w1 t1 →
  dataset args = "VulasDiffToken" ∧
  l_dataset_class l = VulasDiffTokenHierarchical E ∧
  ∃ wa,
    iters (VulasDiffTokenHierarchical E) (data_dir args)
      (word_vectors_file args) (word_vectors_dir args) (batch_size args)
      (if cuda_is_available E w && cuda args
       then cuda_device (gpu args) else cpu_device) w
    = (inr (l_train_iter l, l_dev_iter l, l_test_iter l), wa).
Proof.
  intros H. apply prepare_inv in H.
  destruct H as (tr & dv & te & wa & m & wb & opt & wc & e1 & wd & e2 & we
                 & e3 & Hd & Hit & _ & _ & _ & _ & _ & ->).
  simpl. eauto.
Qed.

(** X7.  The trainer configuration takes its batch size, logging
    interval, patience and output directory from the command line, and its
    multilabel flag from the dataset class; each of the three evaluators
    has that same multilabel flag if it has the attribute. *)
Theorem trainer_config_follows_args (args : Args) (w w1 : world)
    (l : Locals) t1 :
  prepare E args w = Run (inr l) w1 t1 →
  tc_batch_size (l_trainer_config l) = batch_size args ∧
  tc_log_interval (l_trainer_config l) = log_every args ∧
  tc_patience (l_trainer_config l) = patience args ∧
  tc_model_outfile (l_trainer_config l) = save_path args ∧
  tc_is_multilabel (l_trainer_config l)
    = IS_MULTILABEL (VulasDiffTokenHierarchical E) ∧
  Forall (λ ev : evaluator,
            is_multilabel ev = None ∨
            is_multilabel ev
              = Some (IS_MULTILABEL (VulasDiffTokenHierarchical E)))
         [l_train_evaluator l; l_test_evaluator l; l_dev_evaluator l].
Proof.
  intros H. apply prepare_inv in H.
  destruct H as (tr & dv & te & wa & m & wb & opt & wc & e1 & wd & e2 & we
                 & e3 & _ & _ & _ & _ & _ & _ & _ & ->).
  simpl. do 5 (split; [done|]).
  destruct e1 as [? [?|] [?|]], e2 as [? [?|] [?|]], e3 as [? [?|] [?|]];
    unfold set_ignore_lengths, set_is_multilabel; simpl;
    repeat (apply Forall_cons; split; [auto|]); by apply Forall_nil.
Qed.

(** X8.  The optimizer in the trainer configuration is built over the
    model the trainer gets, and the three evaluators are built over that
    same model, without an embedding, for the command line's batch size and
    with [args.gpu] as device.  The train evaluator is handed on with only
    its multilabel flag set, so its [ignore_lengths] is the factory's. *)
Theorem evaluators_as_built (args : Args) (w w1 : world) (l : Locals) t1 :
  prepare E args w = Run (inr l) w1 t1 →
  let cls := VulasDiffTokenHierarchical E in
  ∃ wb wc wd we e1 e2 e3,
    Adam E (l_model l) (lr args) (weight_decay args) wb
      = (inr (tc_optimizer (l_trainer_config l)), wc) ∧
    get_evaluator E cls (l_model l) None (l_train_iter l)
      (batch_size args) (gpu args) wc = (inr e1, wd) ∧
    get_evaluator E cls (l_model l) None (l_test_iter l)
      (batch_size args) (gpu args) wd = (inr e2, we) ∧
    get_evaluator E cls (l_model l) None (l_dev_iter l)
      (batch_size args) (gpu args) we = (inr e3, w1) ∧
    l_train_evaluator l = set_is_multilabel e1 (IS_MULTILABEL cls) ∧
    ignore_lengths (l_train_evaluator l) = ignore_lengths e1 ∧
    l_test_evaluator l = tuned e2 (IS_MULTILABEL cls) ∧
    l_dev_evaluator l = tuned e3 (IS_MULTILABEL cls).
Proof.
  intros H cls. apply prepare_inv in H.
  destruct H as (tr & dv & te & wa & m & wb & opt & wc & e1 & wd & e2 & we
                 & e3 & _ & _ & _ & Ho & H1 & H2 & H3 & ->).
  exists wb, wc, wd, we, e1, e2, e3. simpl. repeat split; try done.
  by destruct e1 as [? [?|] ?].
Qed.

(** X9.  The model the trainer gets is either the resume snapshot,
    loaded with the script's [map_location], or a new [HRCNN] built from
    the command line extended with the class count and the vocabulary size
    of the training split, and moved to the accelerator exactly when
    [args.cuda] is set. *)
Theorem model_origin (args : Args) (w w1 : world) (l : Locals) t1 :
  prepare E args w = Run (inr l) w1 t1 →
  ∃ wa wb,
    (∃ path, truthy (resume_snapshot args) = Some path ∧
             torch_load E path (Some (map_location_of args)) wa
               = (inr (l_model l), wb)) ∨
    (truthy (resume_snapshot args) = None ∧
     ∃ w',
       HRCNN E {| cfg_args := args; cfg_dataset := l_train_iter l;
                  target_class := NUM_CLASSES E (l_train_iter l);
                  words_num := vocab_len E (l_train_iter l) |} wa
         = (inr (l_model l), w') ∧
       if cuda args then model_cuda E (l_model l) w' = (inr tt, wb)
       else wb = w').
Proof.
  intros H. apply prepare_inv in H.
  destruct H as (tr & dv & te & wa & m & wb & opt & wc & e1 & wd & e2 & we
                 & e3 & _ & _ & Hm & _ & _ & _ & _ & ->).
  exists wa, wb. exact Hm.
Qed.

(** *** What no run does *)

Lemma in_emit (e x : event) (w : world) :
  In e (emitted (@emit world event x w)) → e = x.
Proof. simpl. by intros [<-|[]]. Qed.

Lemma in_external {A} (e x : event) (op : world → (exn + A) * world) w :
  In e (emitted (external x op w)) → e = x.
Proof. rewrite external_run. simpl. by intros [<-|[]]. Qed.

Lemma prepare_events (args : Args) (w : world) (e : event) :
  In e (emitted (prepare E args w)) →
  is_training e = false ∧
  match truthy (resume_snapshot args) with
  | Some path =>
      is_construction e = false ∧
      (is_load e = true →
       e = ev_torch_load path (Some (map_location_of args)))
  | None => is_load e = false
  end.
Proof.
  intros H. unfold prepare in H.
  apply emitted_bind_inv in H as [H|([dev lg] & _ & H)].
  { apply configure_events in H. unfold preamble in H. simpl in H.
    destruct (cuda_is_available E w && cuda args);
      destruct (cuda_is_available E w && negb (cuda args)); simpl in H;
      repeat (destruct H as [<-|H]); try done; simpl;
      destruct (truthy (resume_snapshot args)); by repeat split. }
  destruct (dataset_map E !! dataset args) as [cls|]; [|destruct H].
  apply emitted_bind_inv in H as [H|([[tr dv] te] & _ & H)].
  { apply in_external in H as ->. simpl.
    destruct (truthy (resume_snapshot args)); by repeat split. }
  destruct (truthy (resume_snapshot args)) as [path|] eqn:Hr;
    destruct (cuda args) eqn:Hcu;
    repeat (apply emitted_bind_inv in H as [H|(? & _ & H)]);
    first [ apply in_emit in H as ->
          | apply in_external in H as ->
          | rewrite load_remapped_run in H; simpl in H;
            destruct H as [<-|[]]
          | destruct H ];
    simpl; by repeat split.
Qed.

Lemma main_stops_at_factory (args : Args) (w : world) :
  emitted (main E args w) = emitted (prepare E args w) ∧
  after (main E args w) = after (prepare E args w).
Proof.
  destruct (prepare E args w) as [[e|l] w1 t1] eqn:Hp.
  - unfold main. by rewrite (bind_raise _ _ _ _ _ _ Hp).
  - assert (Hd : dataset args = "VulasDiffToken").
    { apply prepare_inv in Hp.
      by destruct Hp as (? & ? & ? & ? & ? & ? & ? & ? & ? & ? & ? & ?
                         & ? & Hd & _). }
    unfold main. rewrite (bind_return _ _ _ _ _ _ Hp).
    erewrite bind_raise;
      [|rewrite Hd; apply get_trainer_miss;
        exact (trainer_map_lookup E "VulasDiffToken")].
    simpl. by rewrite app_nil_r.
Qed.

(** X10.  No run of the script builds a trainer, trains, or asks an
    evaluator for scores: whatever the command line and the environment,
    the script ends with an error at the trainer factory at the latest. *)
Theorem main_never_trains (args : Args) (w : world) :
  Forall (λ e, is_training e = false) (emitted (main E args w)).
Proof.
  destruct (main_stops_at_factory args w) as [-> _].
  apply List.Forall_forall. by intros e [? _]%prepare_events.
Qed.

(** X11.  A run either resumes or builds: with a resume snapshot the
    script constructs no [HRCNN] and calls no [model.cuda()], and its only
    load is that snapshot, with a [map_location]; without one it loads
    nothing before the factory call. *)
Theorem model_resumed_or_built (args : Args) (w : world) :
  Forall (λ e,
     match truthy (resume_snapshot args) with
     | Some path =>
         is_construction e = false ∧
         (is_load e = true →
          e = ev_torch_load path (Some (map_location_of args)))
     | None => is_load e = false
     end) (emitted (main E args w)).
Proof.
  destruct (main_stops_at_factory args w) as [-> _].
  apply List.Forall_forall. by intros e [_ ?]%prepare_events.
Qed.


(** X19.  The seeding calls come first, in the order torch, numpy,
    random, each with the command line's seed, and between them there are
    only the device selection and the warning.  A run has either made all
    of them before anything else, or it ended in one of them, and then
    it made only some first part of them and no dataset, model, optimizer,
    evaluator or trainer call at all. *)
Theorem seeding_comes_first (args : Args) (w : world) :
  ∃ mid seeding,
    seeding =
      ev_manual_seed (seed args) :: ev_cudnn_deterministic :: mid ++
      [ev_np_seed (seed args); ev_random_seed (seed args); ev_get_logger] ∧
    Forall (λ e, allocates e = false) mid ∧
    ((∃ rest, emitted (main E args w) = seeding ++ rest) ∨
     (∃ rest, seeding = emitted (main E args w) ++ rest ∧
              Forall (λ e, allocates e = false) (emitted (main E args w)))).
Proof.
  exists ((if cuda_is_available E w && cuda args
           then [ev_cuda_set_device (gpu args);
                 ev_torch_device (cuda_device (gpu args))]
           else [ev_torch_device cpu_device]) ++
          (if cuda_is_available E w && negb (cuda args)
           then [ev_print [PyStr "Warning: Using CPU for training"]]
           else [])), (preamble E args w).
  split; [unfold preamble; simpl; by rewrite <- !app_assoc|].
  split.
  { destruct (cuda_is_available E w && cuda args);
      destruct (cuda_is_available E w && negb (cuda args));
      repeat constructor. }
  destruct (main_seeds_first E args w) as [[rest H]|[rest H]].
  - left. by exists rest.
  - right. exists rest. split; [done|].
    pose proof (preamble_allocates_nothing E args w) as Hf.
    rewrite H in Hf. by apply Forall_app in Hf as [? _].
Qed.

(** X12.  When the command line asks for the accelerator on a machine
    that has none and resumes from a snapshot, and the seeding block has
    returned, the iterators are made for the CPU while the snapshot is
    still loaded with [storage.cuda(args.gpu)] as [map_location]: the load
    follows the command line's flag, not the device that was selected. *)
Theorem resume_remaps_to_unavailable_accelerator (args : Args)
    (w w' wa : world) (x : device * logger) t
    (path : string) (its : loader * loader * loader) :
  cuda args = true →
  cuda_is_available E w = false →
  truthy (resume_snapshot args) = Some path →
  dataset args = "VulasDiffToken" →
  configure E args w = Run (inr x) w' t →
  iters (VulasDiffTokenHierarchical E) (data_dir args)
    (word_vectors_file args) (word_vectors_dir args) (batch_size args)
    cpu_device w' = (inr its, wa) →
  In (ev_iters (dataset args) (data_dir args) (word_vectors_file args)
        (word_vectors_dir args) (batch_size args) cpu_device)
     (emitted (prepare E args w)) ∧
  In (ev_torch_load path (Some (storage_cuda (gpu args))))
     (emitted (prepare E args w)).
Proof.
  intros Hc Hav Hr Hd Hcf Hit. unfold prepare.
  rewrite (bind_return _ _ _ _ _ _ Hcf).
  destruct (configure_ok E _ _ _ _ _ Hcf) as (-> & -> & ->).
  cbn [emitted]. unfold selected_device. rewrite Hav. cbn [andb].
  rewrite dataset_map_lookup, decide_True by done.
  rewrite (bind_return _ _ w its wa
             [ev_iters (dataset args) (data_dir args) (word_vectors_file args)
                (word_vectors_dir args) (batch_size args) cpu_device])
    by (by rewrite external_run, Hit).
  destruct its as [[tr dv] te]. rewrite !bind_emit. cbn [emitted].
  match goal with |- context [emitted (bind ?m ?f wa)] =>
    destruct (bind_prefix m f wa) as [rest ->] end.
  rewrite Hr, load_remapped_run. cbn [emitted].
  unfold map_location_of. rewrite Hc.
  rewrite !in_app_iff. simpl. split; auto 10.
Qed.

(** *** After the factory *)

(** X13.  The trainer is run exactly when no pretrained model is given,
    and then for the command line's number of epochs. *)
Theorem train_iff_not_pretrained (args : Args) (t t' : trainer) (m : model)
    (w : world) (n : Z) :
  In (ev_train t' n) (emitted (select_model E args t m w)) ↔
  truthy (trained_model args) = None ∧ t' = t ∧ n = epochs args.
Proof.
  unfold select_model.
  destruct (truthy (trained_model args)) as [path|];
    cbv [bind external ret load_remapped];
    repeat case_match; simplify_eq; simpl; split;
    try (intros Hin; repeat (destruct Hin as [Hin|Hin]; simplify_eq); done);
    try (by intros (? & ? & ?)); try (intros (_ & -> & ->); auto).
Qed.

(** X14.  When training raises, the error is the outcome of the step:
    nothing is loaded afterwards, whether or not the trainer has a
    [snapshot_path]. *)
Theorem failed_training_loads_nothing (args : Args) (t : trainer) (m : model)
    (w w1 : world) (e : exn) :
  truthy (trained_model args) = None →
  train E t (epochs args) w = (inl e, w1) →
  select_model E args t m w = Run (inl e) w1 [ev_train t (epochs args)].
Proof.
  intros Ht Htr. unfold select_model. rewrite Ht.
  cbv [bind external ret]. by rewrite Htr.
Qed.

(** X15.  With a trainer that has no [snapshot_path], the model that is
    evaluated is the one in memory: the model that was trained in place,
    or the pretrained model that was loaded. *)
Theorem model_without_snapshot_path (args : Args) (t : trainer) (m : model)
    (w : world) :
  snapshot_path E t = None →
  select_model E args t m w =
  match truthy (trained_model args) with
  | None =>
      Run (match fst (train E t (epochs args) w) with
           | inl e => inl e
           | inr _ => inr m
           end)
          (snd (train E t (epochs args) w)) [ev_train t (epochs args)]
  | Some path =>
      Run (fst (torch_load E path (Some (map_location_of args)) w))
          (snd (torch_load E path (Some (map_location_of args)) w))
          [ev_torch_load path (Some (map_location_of args))]
  end.
Proof.
  intros Hs. unfold select_model. rewrite Hs.
  destruct (truthy (trained_model args)) as [path|].
  - rewrite bind_run, load_remapped_run. simpl.
    by destruct (torch_load E path _ w) as [[e|m1] w1].
  - cbv [bind external ret].
    by destruct (train E t (epochs args) w) as [[e|[]] w1].
Qed.

Lemma printed_lines_app (t1 t2 : list event) :
  printed_lines (t1 ++ t2) = (printed_lines t1 + printed_lines t2)%nat.
Proof. induction t1 as [|e t1 IH]; simpl; [done|]. rewrite IH. lia. Qed.

Lemma evaluate_dataset_lines split (cls : dataset_class) (m : model)
    (emb : option embedding) (ld : loader) (bs dev : Z) (ml : bool)
    (path : string) (w : world) :
  printed_lines (emitted (evaluate_dataset E split cls m emb ld bs dev ml path w))
  = match result (evaluate_dataset E split cls m emb ld bs dev ml path w) with
    | inr _ => 3%nat
    | inl _ => 0%nat
    end.
Proof.
  unfold evaluate_dataset, get_scores. cbv [bind emit ret external].
  repeat case_match; by simplify_eq.
Qed.

(** X16.  A report is printed whole or not at all.  One call of
    [evaluate_dataset] prints its three lines when it returns and nothing
    when it raises; the final evaluation prints six lines when it returns,
    and when it raises it has printed nothing or the dev report only. *)
Theorem reports_are_whole (args : Args) (l : Locals) (m : model) (w : world) :
  (∀ split cls emb ld bs dev ml path w',
     printed_lines
       (emitted (evaluate_dataset E split cls m emb ld bs dev ml path w'))
     = match result (evaluate_dataset E split cls m emb ld bs dev ml path w')
       with inr _ => 3%nat | inl _ => 0%nat end) ∧
  match result (final_evaluation E args l m w) with
  | inr _ => printed_lines (emitted (final_evaluation E args l m w)) = 6%nat
  | inl _ => printed_lines (emitted (final_evaluation E args l m w)) = 0%nat ∨
             printed_lines (emitted (final_evaluation E args l m w)) = 3%nat
  end.
Proof.
  split; [intros; apply evaluate_dataset_lines|].
  unfold final_evaluation. rewrite bind_run.
  match goal with |- context [result (evaluate_dataset E ?s ?c ?m ?e ?l ?b ?d ?i ?p w)] =>
    pose proof (evaluate_dataset_lines s c m e l b d i p w) as Hd;
    destruct (evaluate_dataset E s c m e l b d i p w) as [[x|[]] w1 t1]
  end; simpl in *; [auto|].
  match goal with |- context [result (evaluate_dataset E ?s ?c ?m ?e ?l ?b ?d ?i ?p w1)] =>
    pose proof (evaluate_dataset_lines s c m e l b d i p w1) as Ht;
    destruct (evaluate_dataset E s c m e l b d i p w1) as [[x|[]] w2 t2]
  end; simpl in *; rewrite printed_lines_app, Hd, Ht; auto.
Qed.

End HarnessMore.

(** ** More on the embedding cache *)

Section CacheMore.
Import UnknownWordVecCache.
Context {V rng : Type}.
Variable uniform : Q → Q → rng → V * rng.
Local Abbreviation state := (@state V rng).
Local Abbreviation tensor := (@tensor V).
Local Abbreviation unk := (unk uniform).
Local Abbreviation unk_all := (unk_all uniform).
Implicit Types (st : state) (t : tensor) (s : list nat) (r : ref).

Lemma draw_length (n : nat) (g : rng) :
  length (fst (draw uniform n g)) = n.
Proof.
  revert g. induction n as [|n IH]; intros g; simpl; [done|].
  destruct (uniform _ _ g) as [v g1]. specialize (IH g1).
  destruct (draw uniform n g1) as [vs g2]. simpl in *. by rewrite IH.
Qed.

Lemma unk_shaped st t : cache_shaped st → cache_shaped (snd (unk t st)).
Proof.
  intros Hs. destruct (cache st !! t_size t) as [r'|] eqn:Ht.
  - by rewrite (unk_hit _ _ _ _ Ht).
  - rewrite (unk_miss _ _ _ Ht). intros s r. simpl.
    destruct (decide (t_size t = s)) as [<-|Hne].
    + rewrite lookup_insert_eq. intros [= <-].
      exists (fst (draw uniform (numel (t_size t)) (gen st))).
      split; [by apply list_lookup_middle|apply draw_length].
    + rewrite lookup_insert_ne by done. intros Hc.
      destruct (Hs _ _ Hc) as (vs & Hh & Hl). exists vs. split; [|done].
      rewrite lookup_app_l; [done|]. by eapply lookup_lt_Some.
Qed.

Lemma unk_all_shaped (ts : list tensor) st :
  cache_shaped st → cache_shaped (unk_all ts st).
Proof.
  revert st. induction ts as [|t ts IH]; intros st Hs; [done|].
  apply IH, unk_shaped, Hs.
Qed.

Lemma init_shaped (g : rng) : cache_shaped (init g : state).
Proof. intros s r. simpl. by rewrite lookup_empty. Qed.

(** X17.  Whatever was requested before, the object [unk] returns has
    the size of the tensor it was called with and holds as many components
    as that size has entries. *)
Theorem unk_returns_requested_size (g : rng) (ts : list tensor) t :
  ∃ r vs,
    fst (unk t (unk_all ts (init g))) = Some r ∧
    heap (snd (unk t (unk_all ts (init g)))) !! r =
      Some {| t_size := t_size t; t_data := Some vs |} ∧
    length vs = numel (t_size t).
Proof.
  destruct (unk_returns uniform (unk_all ts (init g)) t) as [r Hr].
  pose proof (unk_shaped _ t (unk_all_shaped ts _ (init_shaped g))) as Hs.
  destruct (Hs (t_size t) r) as (vs & Hh & Hl); [by rewrite <- Hr|].
  by exists r, vs.
Qed.

Lemma unk_dom st t :
  dom (cache (snd (unk t st))) = {[t_size t]} ∪ dom (cache st).
Proof.
  destruct (cache st !! t_size t) as [r'|] eqn:Ht.
  - rewrite (unk_hit _ _ _ _ Ht). simpl.
    assert (Hin : t_size t ∈ dom (cache st)) by (apply elem_of_dom; eauto).
    apply leibniz_equiv. intros x. rewrite elem_of_union, elem_of_singleton.
    split; [auto|]. by intros [->|?].
  - rewrite (unk_miss _ _ _ Ht). simpl. apply dom_insert_L.
Qed.

Lemma unk_all_dom (ts : list tensor) st :
  dom (cache (unk_all ts st)) = list_to_set (t_size <$> ts) ∪ dom (cache st).
Proof.
  revert st. induction ts as [|t ts IH]; intros st.
  - simpl. by rewrite (left_id_L ∅ (∪)).
  - change (unk_all (t :: ts) st) with (unk_all ts (snd (unk t st))).
    rewrite IH, unk_dom, fmap_cons, list_to_set_cons.
    apply set_eq. intros x. rewrite !elem_of_union. tauto.
Qed.

Lemma unk_counts st t :
  length (heap st) = size (cache st) →
  length (heap (snd (unk t st))) = size (cache (snd (unk t st))).
Proof.
  intros Hn. destruct (cache st !! t_size t) as [r'|] eqn:Ht.
  - by rewrite (unk_hit _ _ _ _ Ht).
  - rewrite (unk_miss _ _ _ Ht). simpl.
    rewrite length_app, map_size_insert_None by done. simpl. lia.
Qed.

Lemma unk_all_counts (ts : list tensor) st :
  length (heap st) = size (cache st) →
  length (heap (unk_all ts st)) = size (cache (unk_all ts st)).
Proof.
  revert st. induction ts as [|t ts IH]; intros st Hn; [done|].
  apply IH, unk_counts, Hn.
Qed.

(** X18.  The cache holds exactly the sizes that were requested, and the
    store holds one object for each of them: nothing is generated twice
    for a size and nothing is ever dropped.  The reference a first request
    for a size gets is the number of sizes cached before it. *)
Theorem one_object_per_size (g : rng) (ts : list tensor) :
  dom (cache (unk_all ts (init g))) = list_to_set (t_size <$> ts) ∧
  length (heap (unk_all ts (init g))) = size (cache (unk_all ts (init g))) ∧
  ∀ t, cache (unk_all ts (init g)) !! t_size t = None →
       fst (unk t (unk_all ts (init g)))
         = Some (size (cache (unk_all ts (init g)))).
Proof.
  assert (Hn : length (heap (unk_all ts (init g)))
               = size (cache (unk_all ts (init g)))).
  { apply unk_all_counts. simpl. by rewrite map_size_empty. }
  split; [|split; [done|]].
  - rewrite unk_all_dom. simpl. by rewrite dom_empty_L, (right_id_L ∅ (∪)).
  - intros t Ht. rewrite (unk_miss _ _ _ Ht). simpl. by rewrite Hn.
Qed.
End CacheMore.


(** ** The further properties on sample inputs *)

Lemma get_trainer_error_names_the_dataset_witness :
  result (get_trainer Sample.env "Reuters" "hrcnn" None "train"
            (l_trainer_config Sample.locals)
            (l_train_evaluator Sample.locals)
            (l_test_evaluator Sample.locals) None 0%nat) ≠
  result (get_trainer Sample.env "AAPD" "hrcnn" None "train"
            (l_trainer_config Sample.locals)
            (l_train_evaluator Sample.locals)
            (l_test_evaluator Sample.locals) None 7%nat).
Proof.
  apply (get_trainer_error_names_the_dataset Sample.env "Reuters" "AAPD");
    [vm_compute; reflexivity|vm_compute; reflexivity|discriminate].
Defined.

Lemma prepare_accepts_one_dataset_witness :
  dataset (Sample.args "VulasDiffToken" None) = "VulasDiffToken" ∧
  l_dataset_class Sample.locals = VulasDiffTokenHierarchical Sample.env ∧
  ∃ wa,
    iters (VulasDiffTokenHierarchical Sample.env) "data" "vectors.txt"
      "embeddings" 10 cpu_device 0%nat
    = (inr (l_train_iter Sample.locals, l_dev_iter Sample.locals,
            l_test_iter Sample.locals), wa).
Proof.
  eapply (prepare_accepts_one_dataset Sample.env
            (Sample.args "VulasDiffToken" None) 0%nat).
  vm_compute. reflexivity.
Defined.

Lemma trainer_config_follows_args_witness :
  tc_batch_size (l_trainer_config Sample.locals) = 10 ∧
  tc_log_interval (l_trainer_config Sample.locals) = 10 ∧
  tc_patience (l_trainer_config Sample.locals) = 5 ∧
  tc_model_outfile (l_trainer_config Sample.locals) = "saves"%string ∧
  tc_is_multilabel (l_trainer_config Sample.locals) = false ∧
  Forall (λ ev : @evaluator string,
            is_multilabel ev = None ∨ is_multilabel ev = Some false)
         [l_train_evaluator Sample.locals; l_test_evaluator Sample.locals;
          l_dev_evaluator Sample.locals].
Proof.
  eapply (trainer_config_follows_args Sample.env
            (Sample.args "VulasDiffToken" None) 0%nat).
  vm_compute. reflexivity.
Defined.

Lemma evaluators_as_built_witness :
  ∃ wb wc wd we e1 e2 e3,
    Adam Sample.env (l_model Sample.locals) 1 0 wb
      = (inr (tc_optimizer (l_trainer_config Sample.locals)), wc) ∧
    get_evaluator Sample.env Sample.vulas (l_model Sample.locals) None
      (l_train_iter Sample.locals) 10 0 wc = (inr e1, wd) ∧
    get_evaluator Sample.env Sample.vulas (l_model Sample.locals) None
      (l_test_iter Sample.locals) 10 0 wd = (inr e2, we) ∧
    get_evaluator Sample.env Sample.vulas (l_model Sample.locals) None
      (l_dev_iter Sample.locals) 10 0 we = (inr e3, 6%nat) ∧
    l_train_evaluator Sample.locals = set_is_multilabel e1 false ∧
    ignore_lengths (l_train_evaluator Sample.locals) = ignore_lengths e1 ∧
    l_test_evaluator Sample.locals = tuned e2 false ∧
    l_dev_evaluator Sample.locals = tuned e3 false.
Proof.
  eapply (evaluators_as_built Sample.env
            (Sample.args "VulasDiffToken" None) 0%nat 6%nat).
  vm_compute. reflexivity.
Defined.

Lemma model_origin_witness :
  ∃ wa wb,
    (∃ path, truthy (resume_snapshot SampleCuda.args) = Some path ∧
             torch_load Sample.env path
               (Some (map_location_of SampleCuda.args)) wa
               = (inr (l_model SampleCuda.locals), wb)) ∨
    (truthy (resume_snapshot SampleCuda.args) = None ∧
     ∃ w',
       HRCNN Sample.env
         {| cfg_args := SampleCuda.args;
            cfg_dataset := l_train_iter SampleCuda.locals;
            target_class := NUM_CLASSES Sample.env (l_train_iter SampleCuda.locals);
            words_num := vocab_len Sample.env (l_train_iter SampleCuda.locals) |}
         wa = (inr (l_model SampleCuda.locals), w') ∧
       if cuda SampleCuda.args
       then model_cuda Sample.env (l_model SampleCuda.locals) w' = (inr tt, wb)
       else wb = w').
Proof.
  eapply (model_origin Sample.env SampleCuda.args 0%nat).
  vm_compute. reflexivity.
Defined.

Lemma resume_remaps_to_unavailable_accelerator_witness :
  In (ev_iters "VulasDiffToken" "data" "vectors.txt" "embeddings" 10
        cpu_device)
     (emitted (prepare Sample.env SampleCuda.args 0%nat)) ∧
  In (ev_torch_load "resume.pt" (Some (storage_cuda 1)))
     (emitted (prepare Sample.env SampleCuda.args 0%nat)).
Proof.
  apply (resume_remaps_to_unavailable_accelerator Sample.env SampleCuda.args
           0%nat 0%nat 1%nat (cpu_device, tt)
           [ev_manual_seed 3435; ev_cudnn_deterministic;
            ev_torch_device cpu_device; ev_np_seed 3435; ev_random_seed 3435;
            ev_get_logger]
           "resume.pt" ("train", "dev", "test")%string);
    reflexivity.
Defined.

Lemma device_selection_witness :
  (cpu_device, tt) =
    (if cuda_is_available Sample.env 0%nat && cuda SampleCuda.args
     then cuda_device (gpu SampleCuda.args) else cpu_device,
     logging_getLogger Sample.env 0%nat) ∧
  0%nat = 0%nat ∧
  (∀ g, In (ev_cuda_set_device g) SampleCuda.seeding ↔
        cuda_is_available Sample.env 0%nat = true ∧
        cuda SampleCuda.args = true ∧ g = gpu SampleCuda.args) ∧
  (In (ev_print [PyStr "Warning: Using CPU for training"])
      SampleCuda.seeding ↔
   cuda_is_available Sample.env 0%nat = true ∧ cuda SampleCuda.args = false).
Proof.
  apply (device_selection Sample.env SampleCuda.args 0%nat 0%nat).
  reflexivity.
Defined.

Lemma failed_training_loads_nothing_witness :
  select_model SampleCuda.env_failing (Sample.args "VulasDiffToken" None)
    "trainer" "hrcnn" 0%nat =
  Run (inl (ExternalError "loss diverged")) 1%nat [ev_train "trainer" 1].
Proof.
  apply (failed_training_loads_nothing SampleCuda.env_failing
           (Sample.args "VulasDiffToken" None) "trainer" "hrcnn" 0%nat 1%nat);
    reflexivity.
Defined.

Lemma model_without_snapshot_path_witness :
  select_model SampleCuda.env_no_snapshot (Sample.args "VulasDiffToken" None)
    "trainer" "hrcnn" 0%nat =
  Run (inr "hrcnn"%string) 1%nat [ev_train "trainer" 1].
Proof.
  apply (model_without_snapshot_path SampleCuda.env_no_snapshot
           (Sample.args "VulasDiffToken" None) "trainer" "hrcnn" 0%nat).
  reflexivity.
Defined.
